(** * Inspection utilities of [datasets/inspect.py]

    A shallow embedding of the functions of [src/datasets/inspect.py]:
    [list_datasets], [list_metrics], [inspect_dataset], [inspect_metric],
    [get_dataset_infos], [get_dataset_config_names],
    [get_dataset_config_info] and [get_dataset_split_names].

    The module is glue code over collaborators that live in other modules
    (the hub client, the module factories, the builder loader, the streaming
    download manager).  Each function is embedded as a computation in a
    state-and-exception monad over an explicit world; the collaborators are
    the fields of an environment record. *)

From Stdlib Require Import ZArith Ascii.
From stdpp Require Import base option list strings gmap fin_maps.

Set Default Proof Using "Type".

(** ** Python values that are passed through unchanged *)

(** Arguments such as [revision], [download_mode], [data_files],
    [use_auth_token] and the values of keyword dictionaries are never
    inspected by this module beyond [is None]. *)
Inductive pyval : Type :=
  | PyNone
  | PyBool (b : bool)
  | PyInt (z : Z)
  | PyStr (s : string).

#[global] Instance pyval_eq_dec : EqDecision pyval.
Proof. solve_decision. Defined.

#[global] Instance pyval_inhabited : Inhabited pyval := populate PyNone.

(** [x is not None] *)
Definition is_not_None (v : pyval) : bool :=
  match v with PyNone => false | _ => true end.

(** ** Exceptions *)

(** The exception classes that matter here, with the base each class
    statement names.  [SplitsNotFoundError] is the one class this module
    declares: [class SplitsNotFoundError(ValueError)].  [OtherError] is a
    class declared elsewhere, with the base its class statement names. *)
Inductive exc_class : Type :=
  | BaseException
  | Exception
  | KeyboardInterrupt
  | SystemExit
  | GeneratorExit
  | ValueError
  | TypeError
  | AttributeError
  | LookupError
  | KeyError
  | ImportError
  | RuntimeError
  | OSError
  | ConnectionError
  | FileNotFoundError
  | SplitsNotFoundError
  | OtherError (name : string) (base : exc_class).

#[global] Instance exc_class_eq_dec : EqDecision exc_class.
Proof. solve_decision. Defined.

(** The direct base of a class ([None] for the root). *)
Definition exc_base (c : exc_class) : option exc_class :=
  match c with
  | BaseException => None
  | Exception | KeyboardInterrupt | SystemExit | GeneratorExit => Some BaseException
  | ValueError | TypeError | AttributeError | LookupError | ImportError
  | RuntimeError | OSError => Some Exception
  | KeyError => Some LookupError
  | ConnectionError | FileNotFoundError => Some OSError
  | SplitsNotFoundError => Some ValueError
  | OtherError _ base => Some base
  end.

(** The number of classes between a class and the root. *)
Fixpoint exc_depth (c : exc_class) : nat :=
  match c with
  | BaseException => 0
  | Exception | KeyboardInterrupt | SystemExit | GeneratorExit => 1
  | ValueError | TypeError | AttributeError | LookupError | ImportError
  | RuntimeError | OSError => 2
  | KeyError | ConnectionError | FileNotFoundError | SplitsNotFoundError => 3
  | OtherError _ base => S (exc_depth base)
  end.

(** [c] and its ancestors, nearest first, following [exc_base] for at most
    [fuel] steps. *)
Fixpoint exc_ancestors (fuel : nat) (c : exc_class) : list exc_class :=
  match fuel with
  | O => [c]
  | S n => c :: match exc_base c with
                | Some b => exc_ancestors n b
                | None => []
                end
  end.

(** A class and all its ancestors, up to the root. *)
Definition exc_mro (c : exc_class) : list exc_class := exc_ancestors (exc_depth c) c.

Definition issubclass (c d : exc_class) : bool := bool_decide (d ∈ exc_mro c).

(** An exception object: its class, its message and its [__cause__]. *)
#[warnings="-register-all"]
Inductive exn : Type :=
  | Exn (cls : exc_class) (msg : string) (cause : option exn).

Definition exn_class (e : exn) : exc_class := match e with Exn c _ _ => c end.
Definition exn_msg (e : exn) : string := match e with Exn _ m _ => m end.
Definition exn_cause (e : exn) : option exn := match e with Exn _ _ c => c end.

Definition isinstance (e : exn) (c : exc_class) : bool := issubclass (exn_class e) c.

(** [raise new from err]: the new exception with [__cause__] set. *)
Definition exn_from (new err : exn) : exn :=
  Exn (exn_class new) (exn_msg new) (Some err).

(** ** Strings *)

(** [sub in s] on Python strings: [sub] occurs in [s] as a substring. *)
Fixpoint str_in (sub s : string) : bool :=
  String.prefix sub s ||
  match s with
  | EmptyString => false
  | String _ s' => str_in sub s'
  end.

(** An identifier without the namespace separator. *)
Definition no_namespace (s : string) : Prop :=
  "/"%char ∉ String.list_ascii_of_string s.

#[global] Instance no_namespace_dec s : Decision (no_namespace s).
Proof. unfold no_namespace. apply _. Defined.

(** ** Insertion-ordered dictionaries *)

(** A Python [dict]: its items in insertion order, with pairwise distinct
    keys. *)
Record pydict (K V : Type) `{EqDecision K} : Type := PyDict {
  dict_items : list (K * V);
  dict_wf : bool_decide (NoDup (dict_items.*1))
}.
Arguments PyDict {K V _} dict_items dict_wf.
Arguments dict_items {K V _} _.
Arguments dict_wf {K V _} _.

Section pydict.
Context {K V : Type} `{EqDecision K}.

Definition dict_keys (d : pydict K V) : list K := (dict_items d).*1.

Fixpoint items_get (k : K) (l : list (K * V)) : option V :=
  match l with
  | [] => None
  | (k', v') :: l' => if decide (k' = k) then Some v' else items_get k l'
  end.

(** [d.get(k)] *)
Definition dict_get (k : K) (d : pydict K V) : option V :=
  items_get k (dict_items d).

Program Definition dict_empty : pydict K V := PyDict [] _.
Next Obligation. done. Qed.

(** [d[k] = v] on the item list: an existing key keeps its position. *)
Fixpoint items_set (k : K) (v : V) (l : list (K * V)) : list (K * V) :=
  match l with
  | [] => [(k, v)]
  | (k', v') :: l' =>
      if decide (k' = k) then (k, v) :: l' else (k', v') :: items_set k v l'
  end.

Program Definition dict_set (k : K) (v : V) (d : pydict K V) : pydict K V :=
  PyDict (items_set k v (dict_items d)) _.
Next Obligation.
  intros k v [l Hl]; simpl. apply bool_decide_pack.
  apply bool_decide_unpack in Hl.
  cut (NoDup (items_set k v l).*1 ∧
       ∀ x, x ∈ (items_set k v l).*1 → x = k ∨ x ∈ l.*1); [by intros [] |].
  induction l as [|[k' v'] l IH]; csimpl.
  - split; [apply NoDup_singleton |].
    intros x ->%list_elem_of_singleton. by left.
  - apply NoDup_cons in Hl as [Hk' Hl]. destruct (IH Hl) as [IH1 IH2].
    destruct (decide (k' = k)) as [->|Hne]; csimpl.
    + split; [by apply NoDup_cons |]. intros x Hx. by right.
    + split.
      * apply NoDup_cons. split; [| done].
        intros Hx. destruct (IH2 _ Hx); done.
      * intros x [->|Hx]%elem_of_cons; [right; by left |].
        destruct (IH2 _ Hx); [by left | right; by right].
Qed.

End pydict.

(** ** Data model *)

(** Modelled from the spec: the download configuration object of
    [download/download_config.py], which is not among the sources read here.
    It "supports a copy() operation and a mutable use_auth_token field"; its
    remaining attributes are kept as one attribute dictionary. *)
Record DownloadConfig : Type := mkDownloadConfig {
  dc_use_auth_token : pyval;
  dc_fields : gmap string pyval
}.

(** A reference to a [DownloadConfig] object. *)
Definition loc : Type := nat.

(** An entry of the hub catalogue: [.id] and whatever else the hub sends. *)
Record HubEntry : Type := mkHubEntry {
  id : string;
  entry_fields : gmap string pyval
}.

(** What [list_datasets] and [list_metrics] hand back: the hub's records,
    or their identifiers. *)
Inductive Listing : Type :=
  | Records (entries : list HubEntry)
  | Names (ids : list string).

(** The handle a module factory returns. *)
Record DatasetModule : Type := mkDatasetModule {
  module_path : string;
  builder_kwargs : gmap string pyval
}.

Record MetricModule : Type := mkMetricModule {
  metric_module_path : string
}.

(** The builder class: its [builder_configs], from configuration name to
    configuration object. *)
Record BuilderClass : Type := mkBuilderClass {
  builder_configs : pydict pyval pyval
}.

(** A split's metadata, an attribute dictionary; the entries this module
    writes are [{"name": ..., "dataset_name": ...}]. *)
Abbreviation SplitMeta := (gmap string pyval).

Record DatasetInfo : Type := mkDatasetInfo {
  splits : option (pydict string SplitMeta);
  info_fields : gmap string pyval
}.

Record Builder : Type := mkBuilder {
  info : DatasetInfo;
  base_path : string;
  builder_fields : gmap string pyval
}.

Record SplitGenerator : Type := mkSplitGenerator {
  name : string;
  gen_kwargs : gmap string pyval
}.

(** [StreamingDownloadManager(base_path=..., download_config=...)] *)
Record DlManager : Type := mkDlManager {
  dl_base_path : string;
  dl_download_config : loc
}.

(** The parameters of [dataset_module_factory] and [metric_module_factory]. *)
Record FactoryArgs : Type := mkFactoryArgs {
  fa_path : string;
  fa_revision : pyval;
  fa_download_config : option loc;
  fa_download_mode : pyval;
  fa_force_local_path : option string;
  fa_dynamic_modules_path : option string;
  fa_data_files : pyval;
  fa_download_kwargs : gmap string pyval
}.

(** The parameters of [load_dataset_builder]. *)
Record LoaderArgs : Type := mkLoaderArgs {
  la_path : string;
  la_name : pyval;
  la_data_files : pyval;
  la_download_config : option loc;
  la_download_mode : pyval;
  la_revision : pyval;
  la_use_auth_token : pyval;
  la_config_kwargs : gmap string pyval
}.

(** ** The world and the monad *)

(** What a call can observe and change: the [DownloadConfig] objects, the
    lines printed so far, and everything outside the process (file system,
    network, hub), of type [Ext]. *)
Record World (Ext : Type) : Type := mkWorld {
  dc_heap : list DownloadConfig;
  stdout : list string;
  ext : Ext
}.
Arguments mkWorld {Ext} dc_heap stdout ext.
Arguments dc_heap {Ext} _.
Arguments stdout {Ext} _.
Arguments ext {Ext} _.

Inductive Outcome (A : Type) : Type :=
  | Ret (a : A)
  | Raise (e : exn).
Arguments Ret {A} a.
Arguments Raise {A} e.

Definition M (Ext : Type) (A : Type) : Type := World Ext → Outcome A * World Ext.

#[global] Instance M_ret {Ext} : MRet (M Ext) := λ A a w, (Ret a, w).

#[global] Instance M_bind {Ext} : MBind (M Ext) := λ A B f m w,
  match m w with
  | (Ret a, w') => f a w'
  | (Raise e, w') => (Raise e, w')
  end.

Definition raise {Ext A} (e : exn) : M Ext A := λ w, (Raise e, w).

Definition lift_outcome {Ext A} (o : Outcome A) : M Ext A := λ w, (o, w).

(** [try: body / except cls as err: handler err] *)
Definition try_except {Ext A} (body : M Ext A) (cls : exc_class)
    (handler : exn → M Ext A) : M Ext A := λ w,
  match body w with
  | (Ret a, w') => (Ret a, w')
  | (Raise e, w') => if isinstance e cls then handler e w' else (Raise e, w')
  end.

(** [print(line)] *)
Definition print {Ext} (line : string) : M Ext unit := λ w,
  (Ret (), mkWorld (dc_heap w) (stdout w ++ [line]) (ext w)).

(** ** The collaborators *)

Class Env (Ext : Type) : Type := mkEnv {
  (** [huggingface_hub.list_datasets(full=...)] *)
  hub_list_datasets : bool → M Ext (list HubEntry);
  (** [huggingface_hub.list_metrics()] *)
  hub_list_metrics : M Ext (list HubEntry);
  dataset_module_factory : FactoryArgs → M Ext DatasetModule;
  metric_module_factory : FactoryArgs → M Ext MetricModule;
  import_main_class : string → M Ext BuilderClass;
  load_dataset_builder : LoaderArgs → M Ext Builder;
  (** Adapts the builder in place; the builder after the call is the
      result. *)
  extend_dataset_builder_for_streaming : Builder → pyval → M Ext Builder;
  (** The attributes [DownloadConfig()] gives a new object, or the exception
      it raises. *)
  DownloadConfig_init : Outcome DownloadConfig;
  (** The attributes [config.copy()] gives the new object, or the exception
      it raises. *)
  DownloadConfig_copy : DownloadConfig → Outcome DownloadConfig;
  StreamingDownloadManager : string → loc → M Ext DlManager;
  (** [builder._split_generators(dl_manager)], enumerated. *)
  _split_generators : Builder → DlManager → M Ext (list SplitGenerator)
}.

(** ** The functions of [inspect.py] *)

Section inspect.
Context {Ext : Type} {E : Env Ext}.

(** *** Operations on [DownloadConfig] objects *)

(** A new object gets the next free reference. *)
Definition dc_alloc (c : DownloadConfig) : M Ext loc := λ w,
  (Ret (length (dc_heap w)), mkWorld (dc_heap w ++ [c]) (stdout w) (ext w)).

(** Reading through a reference.  A reference that designates no object
    cannot arise in Python; here the read fails like any failing attribute
    access. *)
Definition dc_read (l : loc) : M Ext DownloadConfig := λ w,
  match dc_heap w !! l with
  | Some c => (Ret c, w)
  | None => (Raise (Exn AttributeError "no such object" None), w)
  end.

(** [DownloadConfig()] *)
Definition DownloadConfig_new : M Ext loc :=
  c ← lift_outcome DownloadConfig_init; dc_alloc c.

(** [download_config.copy()] *)
Definition copy (l : loc) : M Ext loc :=
  c ← dc_read l; c' ← lift_outcome (DownloadConfig_copy c); dc_alloc c'.

(** [download_config.use_auth_token = v] *)
Definition set_use_auth_token (l : loc) (v : pyval) : M Ext unit := λ w,
  match dc_heap w !! l with
  | Some c =>
      (Ret (), mkWorld (<[l := mkDownloadConfig v (dc_fields c)]> (dc_heap w))
                       (stdout w) (ext w))
  | None => (Raise (Exn AttributeError "no such object" None), w)
  end.

(** *** Catalogue listing *)

Definition list_datasets (with_community_datasets with_details : bool) : M Ext Listing :=
  datasets ← hub_list_datasets with_details;
  let datasets :=
    if negb with_community_datasets
    then filter (λ dataset, negb (str_in "/" (id dataset))) datasets
    else datasets in
  mret (if negb with_details then Names (id <$> datasets) else Records datasets).

Definition list_metrics (with_community_metrics with_details : bool) : M Ext Listing :=
  metrics ← hub_list_metrics;
  let metrics :=
    if negb with_community_metrics
    then filter (λ metric, negb (str_in "/" (id metric))) metrics
    else metrics in
  mret (if negb with_details then Names (id <$> metrics) else Records metrics).

(** *** Script inspection *)

Definition inspect_dataset_message (path local_path module_path : string) : string :=
  "The processing script for dataset " +:+ path +:+ " can be inspected at "
  +:+ local_path +:+ ". "
  +:+ "The main class is in " +:+ module_path +:+ ". "
  +:+ "You can modify this processing script and use it with `datasets.load_dataset("
  +:+ local_path +:+ ")`.".

Definition inspect_metric_message (path local_path module_path : string) : string :=
  "The processing scripts for metric " +:+ path +:+ " can be inspected at "
  +:+ local_path +:+ ". "
  +:+ "The main class is in " +:+ module_path +:+ ". "
  +:+ "You can modify this processing scripts and use it with `datasets.load_metric("
  +:+ local_path +:+ ")`.".

Definition inspect_dataset (path local_path : string) (download_config : option loc)
    (download_kwargs : gmap string pyval) : M Ext unit :=
  dataset_module ← dataset_module_factory
    (mkFactoryArgs path PyNone download_config PyNone (Some local_path) None PyNone
                   download_kwargs);
  print (inspect_dataset_message path local_path (module_path dataset_module)).

Definition inspect_metric (path local_path : string) (download_config : option loc)
    (download_kwargs : gmap string pyval) : M Ext unit :=
  metric_module ← metric_module_factory
    (mkFactoryArgs path PyNone download_config PyNone (Some local_path) None PyNone
                   download_kwargs);
  print (inspect_metric_message path local_path (metric_module_path metric_module)).

(** *** Configuration names *)

(** [builder_kwargs.get("config_name", "default")] *)
Definition default_config_name (dataset_module : DatasetModule) : pyval :=
  default (PyStr "default") (builder_kwargs dataset_module !! "config_name").

Definition get_dataset_config_names (path : string) (revision : pyval)
    (download_config : option loc) (download_mode : pyval)
    (force_local_path dynamic_modules_path : option string) (data_files : pyval)
    (download_kwargs : gmap string pyval) : M Ext (list pyval) :=
  dataset_module ← dataset_module_factory
    (mkFactoryArgs path revision download_config download_mode force_local_path
                   dynamic_modules_path data_files download_kwargs);
  builder_cls ← import_main_class (module_path dataset_module);
  mret (match dict_keys (builder_configs builder_cls) with
        | [] => [default_config_name dataset_module]
        | keys => keys
        end).

(** *** Per-configuration info *)

Definition splits_not_found_message : string :=
  "The split names could not be parsed from the dataset config.".

(** [{"name": split_generator.name, "dataset_name": path}] *)
Definition split_entry (path : string) (split_generator : SplitGenerator) : SplitMeta :=
  <["dataset_name" := PyStr path]> (<["name" := PyStr (name split_generator)]> ∅).

(** The dictionary comprehension over the split generators. *)
Definition splits_of (path : string) (gens : list SplitGenerator)
    : pydict string SplitMeta :=
  foldl (λ d split_generator,
           dict_set (name split_generator) (split_entry path split_generator) d)
        dict_empty gens.

(** The download configuration used for split discovery: a copy of the
    caller's (or a new one), with the token overlaid. *)
Definition prepared_download_config (download_config : option loc)
    (use_auth_token : pyval) : M Ext loc :=
  download_config ← match download_config with
                    | Some l => copy l
                    | None => DownloadConfig_new
                    end;
  _ ← (if is_not_None use_auth_token
       then set_use_auth_token download_config use_auth_token
       else mret ());
  mret download_config.

(** The body of the [try] block, up to the value assigned to
    [info.splits]. *)
Definition discover_splits (path : string) (builder : Builder)
    (download_config : option loc) (use_auth_token : pyval)
    : M Ext (pydict string SplitMeta) :=
  download_config ← prepared_download_config download_config use_auth_token;
  dl_manager ← StreamingDownloadManager (base_path builder) download_config;
  gens ← _split_generators builder dl_manager;
  mret (splits_of path gens).

Definition get_dataset_config_info (path : string) (config_name data_files : pyval)
    (download_config : option loc) (download_mode revision use_auth_token : pyval)
    (config_kwargs : gmap string pyval) : M Ext DatasetInfo :=
  builder ← load_dataset_builder
    (mkLoaderArgs path config_name data_files download_config download_mode revision
                  use_auth_token config_kwargs);
  builder ← extend_dataset_builder_for_streaming builder use_auth_token;
  let info := info builder in
  match splits info with
  | None =>
      try_except
        (new_splits ← discover_splits path builder download_config use_auth_token;
         mret (mkDatasetInfo (Some new_splits) (info_fields info)))
        Exception
        (λ err, raise (exn_from (Exn SplitsNotFoundError splits_not_found_message None) err))
  | Some _ => mret info
  end.

(** *** All configurations *)

(** [{k: f(k) for k in keys}], the calls made in order. *)
Fixpoint dict_comprehension {V : Type} (f : pyval → M Ext V) (keys : list pyval)
    (acc : pydict pyval V) : M Ext (pydict pyval V) :=
  match keys with
  | [] => mret acc
  | k :: keys' => v ← f k; dict_comprehension f keys' (dict_set k v acc)
  end.

(** The call of lines 203-212,
    [get_dataset_config_info(path=path, config_name=config_name, ...,
    **config_kwargs)].  The other keywords of the call are parameters of
    [get_dataset_infos] itself, so [config_name] is the one keyword that
    [config_kwargs] can repeat; when it does, the call raises [TypeError]
    before the body of [get_dataset_config_info] runs. *)
Definition call_get_dataset_config_info (path : string) (data_files : pyval)
    (download_config : option loc) (download_mode revision use_auth_token : pyval)
    (config_kwargs : gmap string pyval) (config_name : pyval) : M Ext DatasetInfo :=
  match config_kwargs !! "config_name" with
  | Some _ =>
      raise (Exn TypeError
               "get_dataset_config_info() got multiple values for keyword argument 'config_name'"
               None)
  | None =>
      get_dataset_config_info path config_name data_files download_config
        download_mode revision use_auth_token config_kwargs
  end.

Definition get_dataset_infos (path : string) (data_files : pyval)
    (download_config : option loc) (download_mode revision use_auth_token : pyval)
    (config_kwargs : gmap string pyval) : M Ext (pydict pyval DatasetInfo) :=
  config_names ← get_dataset_config_names path revision download_config download_mode
                   None None data_files ∅;
  dict_comprehension
    (call_get_dataset_config_info path data_files download_config download_mode
       revision use_auth_token config_kwargs)
    config_names dict_empty.

(** *** Split names *)

Definition get_dataset_split_names (path : string) (config_name data_files : pyval)
    (download_config : option loc) (download_mode revision use_auth_token : pyval)
    (config_kwargs : gmap string pyval) : M Ext (list string) :=
  info ← get_dataset_config_info path config_name data_files download_config
           download_mode revision use_auth_token config_kwargs;
  match splits info with
  | Some d => mret (dict_keys d)
  | None => raise (Exn AttributeError "'NoneType' object has no attribute 'keys'" None)
  end.

End inspect.

(** * Vocabulary of the statements *)

Section vocabulary.
Context {Ext : Type} {E : Env Ext}.
Implicit Types w : World Ext.

(** The entries kept from a catalogue response. *)
Definition kept_entries (with_community : bool) (catalog : list HubEntry)
    : list HubEntry :=
  if with_community then catalog else filter (λ e, no_namespace (id e)) catalog.

(** The shape of the result. *)
Definition listing_result (with_details : bool) (kept : list HubEntry) : Listing :=
  if with_details then Records kept else Names (id <$> kept).

(** The identifiers a listing holds, whichever its shape. *)
Definition listing_ids (r : Listing) : list string :=
  match r with
  | Records entries => id <$> entries
  | Names ids => ids
  end.

(** The entry the comprehension writes for the split named [k]. *)
Definition split_entry_named (path k : string) : SplitMeta :=
  <["dataset_name" := PyStr path]> (<["name" := PyStr k]> ∅).

(** The arguments [inspect_dataset] and [inspect_metric] give the factory. *)
Definition inspect_args (path local_path : string) (download_config : option loc)
    (download_kwargs : gmap string pyval) : FactoryArgs :=
  mkFactoryArgs path PyNone download_config PyNone (Some local_path) None PyNone
                download_kwargs.

(** The world after one more printed line. *)
Definition printed (line : string) w : World Ext :=
  mkWorld (dc_heap w) (stdout w ++ [line]) (ext w).

(** The exception raised for a failed split discovery. *)
Definition splits_not_found (err : exn) : exn :=
  Exn SplitsNotFoundError splits_not_found_message (Some err).

(** Calls of [f] on the keys one after the other, each in the world the
    previous one left, all returning. *)
Inductive calls_in_order {V : Type} (f : pyval → M Ext V)
    : list pyval → World Ext → list V → World Ext → Prop :=
  | calls_nil w : calls_in_order f [] w [] w
  | calls_cons k ks w v w1 vs w2 :
      f k w = (Ret v, w1) →
      calls_in_order f ks w1 vs w2 →
      calls_in_order f (k :: ks) w (v :: vs) w2.

(** The enumeration of configuration names made by [get_dataset_infos]. *)
Definition infos_config_names (path : string) (data_files : pyval)
    (download_config : option loc) (download_mode revision : pyval)
    : M Ext (list pyval) :=
  get_dataset_config_names path revision download_config download_mode None None
    data_files ∅.

(** The lookup made by [get_dataset_infos] for one configuration name. *)
Definition infos_config_info (path : string) (data_files : pyval)
    (download_config : option loc) (download_mode revision use_auth_token : pyval)
    (config_kwargs : gmap string pyval) (config_name : pyval) : M Ext DatasetInfo :=
  get_dataset_config_info path config_name data_files download_config download_mode
    revision use_auth_token config_kwargs.

(** A computation that leaves the object at [l0], with attributes [c], as it
    is, whether it returns or raises. *)
Definition dc_preserved {A : Type} (l0 : loc) (c : DownloadConfig) (m : M Ext A) : Prop :=
  ∀ w, dc_heap w !! l0 = Some c → dc_heap (m w).2 !! l0 = Some c.

(** The reading of C9 on which the object is unchanged whatever the
    collaborators do. *)
Definition caller_config_always_unchanged (path : string)
    (config_name data_files download_mode revision use_auth_token : pyval)
    (config_kwargs : gmap string pyval) (l0 : loc) (c : DownloadConfig) w : Prop :=
  dc_heap w !! l0 = Some c →
  dc_heap (get_dataset_config_info path config_name data_files (Some l0)
             download_mode revision use_auth_token config_kwargs w).2 !! l0 = Some c.

Section config_info_runs.
Variables (path : string) (config_name data_files : pyval)
  (download_config : option loc) (download_mode revision use_auth_token : pyval)
  (config_kwargs : gmap string pyval).

(** The arguments [get_dataset_config_info] gives the loader. *)
Definition loader_args : LoaderArgs :=
  mkLoaderArgs path config_name data_files download_config download_mode revision
               use_auth_token config_kwargs.

(** The ways a call of [get_dataset_config_info] can go. *)
Inductive config_info_run w : Outcome DatasetInfo → World Ext → Prop :=
  | run_load_failed e w1 :
      load_dataset_builder loader_args w = (Raise e, w1) →
      config_info_run w (Raise e) w1
  | run_adapt_failed b w1 e w2 :
      load_dataset_builder loader_args w = (Ret b, w1) →
      extend_dataset_builder_for_streaming b use_auth_token w1 = (Raise e, w2) →
      config_info_run w (Raise e) w2
  | run_splits_present b w1 b' w2 s :
      load_dataset_builder loader_args w = (Ret b, w1) →
      extend_dataset_builder_for_streaming b use_auth_token w1 = (Ret b', w2) →
      splits (info b') = Some s →
      config_info_run w (Ret (info b')) w2
  | run_splits_computed b w1 b' w2 s w3 :
      load_dataset_builder loader_args w = (Ret b, w1) →
      extend_dataset_builder_for_streaming b use_auth_token w1 = (Ret b', w2) →
      splits (info b') = None →
      discover_splits path b' download_config use_auth_token w2 = (Ret s, w3) →
      config_info_run w (Ret (mkDatasetInfo (Some s) (info_fields (info b')))) w3
  | run_splits_not_found b w1 b' w2 err w3 :
      load_dataset_builder loader_args w = (Ret b, w1) →
      extend_dataset_builder_for_streaming b use_auth_token w1 = (Ret b', w2) →
      splits (info b') = None →
      discover_splits path b' download_config use_auth_token w2 = (Raise err, w3) →
      isinstance err Exception = true →
      config_info_run w (Raise (splits_not_found err)) w3
  | run_not_caught b w1 b' w2 err w3 :
      load_dataset_builder loader_args w = (Ret b, w1) →
      extend_dataset_builder_for_streaming b use_auth_token w1 = (Ret b', w2) →
      splits (info b') = None →
      discover_splits path b' download_config use_auth_token w2 = (Raise err, w3) →
      isinstance err Exception = false →
      config_info_run w (Raise err) w3.

(** The steps of split discovery at which an exception can come up. *)
Inductive discovery_raises (b : Builder) w : exn → World Ext → Prop :=
  | raises_in_config err w1 :
      prepared_download_config download_config use_auth_token w = (Raise err, w1) →
      discovery_raises b w err w1
  | raises_in_manager l w1 err w2 :
      prepared_download_config download_config use_auth_token w = (Ret l, w1) →
      StreamingDownloadManager (base_path b) l w1 = (Raise err, w2) →
      discovery_raises b w err w2
  | raises_in_generators l w1 dl_manager w2 err w3 :
      prepared_download_config download_config use_auth_token w = (Ret l, w1) →
      StreamingDownloadManager (base_path b) l w1 = (Ret dl_manager, w2) →
      _split_generators b dl_manager w2 = (Raise err, w3) →
      discovery_raises b w err w3.

(** The reading of C1 on which a call has no outcome but an info with its
    splits set or a [SplitsNotFoundError]. *)
Definition returns_splits_or_not_found w : Prop :=
  (∃ info0 w',
     get_dataset_config_info path config_name data_files download_config
       download_mode revision use_auth_token config_kwargs w = (Ret info0, w')
     ∧ is_Some (splits info0))
  ∨ (∃ e w',
       get_dataset_config_info path config_name data_files download_config
         download_mode revision use_auth_token config_kwargs w = (Raise e, w')
       ∧ exn_class e = SplitsNotFoundError).

(** The reading of C2 on which every exception of the discovery step is
    translated. *)
Definition every_discovery_exception_translated w : Prop :=
  ∀ b w1 b' w2 err w3,
    load_dataset_builder loader_args w = (Ret b, w1) →
    extend_dataset_builder_for_streaming b use_auth_token w1 = (Ret b', w2) →
    splits (info b') = None →
    discovery_raises b' w2 err w3 →
    get_dataset_config_info path config_name data_files download_config download_mode
      revision use_auth_token config_kwargs w
      = (Raise (splits_not_found err), w3).

End config_info_runs.
End vocabulary.

(** * Sample environments *)

(** Collaborators to run the functions on.  The outside world is a log of
    what the collaborators did. *)

Definition sample_catalog (full : bool) : list HubEntry :=
  let fields : gmap string pyval :=
    if full then {["private" := PyBool false]} else ∅ in
  [mkHubEntry "squad" fields; mkHubEntry "lhoestq/squad" fields;
   mkHubEntry "glue" fields].

Definition sample_metrics : list HubEntry :=
  [mkHubEntry "accuracy" ∅; mkHubEntry "user/f1" ∅].

Definition logged (entry : string) (w : World (list string)) : World (list string) :=
  mkWorld (dc_heap w) (stdout w) (ext w ++ [entry]).

(** Resolves every path but "missing"; copies the script when a local path
    is forced. *)
Definition sample_dataset_module_factory (args : FactoryArgs)
    : M (list string) DatasetModule := λ w,
  if String.eqb (fa_path args) "missing"
  then (Raise (Exn FileNotFoundError "Couldn't find a dataset script" None), w)
  else
    let kwargs : gmap string pyval :=
      if String.eqb (fa_path args) "csv" then {["config_name" := PyStr "my_csv"]}
      else ∅ in
    (Ret (mkDatasetModule ("datasets_modules/" +:+ fa_path args) kwargs),
     match fa_force_local_path args with
     | Some local_path => logged ("copied to " +:+ local_path) w
     | None => w
     end).

Definition sample_metric_module_factory (args : FactoryArgs)
    : M (list string) MetricModule := λ w,
  if String.eqb (fa_path args) "missing"
  then (Raise (Exn FileNotFoundError "Couldn't find a metric script" None), w)
  else
    (Ret (mkMetricModule ("metrics_modules/" +:+ fa_path args)),
     match fa_force_local_path args with
     | Some local_path => logged ("copied to " +:+ local_path) w
     | None => w
     end).

Definition glue_configs : pydict pyval pyval :=
  dict_set (PyStr "mrpc") (PyInt 3)
    (dict_set (PyStr "sst2") (PyInt 2)
       (dict_set (PyStr "cola") (PyInt 1) dict_empty)).

Definition sample_import_main_class (module_path : string) : M (list string) BuilderClass :=
  mret (mkBuilderClass
          (if String.eqb module_path "datasets_modules/glue"
              || String.eqb module_path "datasets_modules/glue_partly_offline"
           then glue_configs
           else dict_empty)).

Definition squad_splits : pydict string SplitMeta :=
  dict_set "validation" {["name" := PyStr "validation"]}
    (dict_set "train" {["name" := PyStr "train"]} dict_empty).

(** The builder of "squad" comes with its splits, the others without. *)
Definition sample_load_dataset_builder (args : LoaderArgs) : M (list string) Builder :=
  λ w,
  if String.eqb (la_path args) "missing"
  then (Raise (Exn FileNotFoundError "Couldn't find a dataset script" None), w)
  else
    (Ret (mkBuilder
            (mkDatasetInfo
               (if String.eqb (la_path args) "squad" then Some squad_splits else None)
               ∅)
            ("base/" +:+ la_path args) {["config" := la_name args]}),
     logged ("loaded " +:+ la_path args) w).

(** A loader that normalises the download configuration it is handed, in
    place. *)
Definition normalising_load_dataset_builder (args : LoaderArgs)
    : M (list string) Builder := λ w,
  let w' :=
    match la_download_config args with
    | Some l =>
        match dc_heap w !! l with
        | Some c =>
            mkWorld
              (<[l := mkDownloadConfig (dc_use_auth_token c)
                        (<["force_extract" := PyBool true]> (dc_fields c))]> (dc_heap w))
              (stdout w) (ext w)
        | None => w
        end
    | None => w
    end in
  sample_load_dataset_builder args w'.

Definition sample_splits : list SplitGenerator :=
  [mkSplitGenerator "train" ∅; mkSplitGenerator "validation" ∅;
   mkSplitGenerator "test" ∅].

(** The builders whose data files cannot be reached. *)
Definition unreachable (b : Builder) : bool :=
  String.eqb (base_path b) "base/offline"
  || (String.eqb (base_path b) "base/glue_partly_offline"
      && bool_decide (builder_fields b !! "config" = Some (PyStr "sst2"))).

(** Enumerates three splits, unless the data of the builder is unreachable. *)
Definition sample_split_generators (b : Builder) (dl_manager : DlManager)
    : M (list string) (list SplitGenerator) := λ w,
  if unreachable b
  then (Raise (Exn ConnectionError "Couldn't reach the data files" None),
        logged "streamed" w)
  else (Ret sample_splits, logged "streamed" w).

(** The enumeration interrupted from the keyboard. *)
Definition interrupted_split_generators (b : Builder) (dl_manager : DlManager)
    : M (list string) (list SplitGenerator) :=
  raise (Exn KeyboardInterrupt "" None).


Definition sample_env_with
    (load : LoaderArgs → M (list string) Builder)
    (generators : Builder → DlManager → M (list string) (list SplitGenerator))
    : Env (list string) :=
  {| hub_list_datasets full := mret (sample_catalog full);
     hub_list_metrics := mret sample_metrics;
     dataset_module_factory := sample_dataset_module_factory;
     metric_module_factory := sample_metric_module_factory;
     import_main_class := sample_import_main_class;
     load_dataset_builder := load;
     extend_dataset_builder_for_streaming b _ := mret b;
     DownloadConfig_init := Ret (mkDownloadConfig PyNone ∅);
     DownloadConfig_copy c := Ret c;
     StreamingDownloadManager base l := mret (mkDlManager base l);
     _split_generators := generators |}.

Definition sample_env : Env (list string) :=
  sample_env_with sample_load_dataset_builder sample_split_generators.

Definition interrupted_env : Env (list string) :=
  sample_env_with sample_load_dataset_builder interrupted_split_generators.

Definition normalising_env : Env (list string) :=
  sample_env_with normalising_load_dataset_builder sample_split_generators.


(** The caller's download configuration, at reference 0. *)
Definition caller_config : DownloadConfig :=
  mkDownloadConfig PyNone {["cache_dir" := PyStr "/tmp/cache"]}.

Definition sample_world : World (list string) := mkWorld [caller_config] [] [].

(** * Properties *)

(** ** Exception classes *)

(** [exc_depth] steps reach the root from every class, so [exc_mro] lists
    all the ancestors. *)
Lemma exc_mro_root (c : exc_class) : last (exc_mro c) = Some BaseException.
Proof.
  unfold exc_mro. induction c as [| | | | | | | | | | | | | | | |n b IH]; try done.
  cbn [exc_depth exc_ancestors exc_base].
  destruct (exc_ancestors (exc_depth b) b) as [|x l] eqn:Hl; [done | exact IH].
Qed.

Lemma exc_ancestors_head (fuel : nat) (c : exc_class) :
  ∃ l, exc_ancestors fuel c = c :: l.
Proof. destruct fuel; simpl; eauto. Qed.

Lemma issubclass_refl (c : exc_class) : issubclass c c = true.
Proof.
  unfold issubclass, exc_mro.
  destruct (exc_ancestors_head (exc_depth c) c) as [l ->].
  apply bool_decide_eq_true, list_elem_of_here.
Qed.

Lemma issubclass_base (c b : exc_class) : exc_base c = Some b → issubclass c b = true.
Proof.
  intros Hb. unfold issubclass, exc_mro. apply bool_decide_eq_true.
  assert (Hd : ∃ d, exc_depth c = S d) by (destruct c; simpl; eauto; done).
  destruct Hd as [d ->]. simpl. rewrite Hb.
  destruct (exc_ancestors_head d b) as [l ->].
  apply list_elem_of_further, list_elem_of_here.
Qed.

(** Every class but the interpreter-exit ones and those derived from them
    directly is an [Exception]. *)
Lemma issubclass_Exception_base (n : string) (b : exc_class) :
  issubclass (OtherError n b) Exception = issubclass b Exception.
Proof.
  unfold issubclass, exc_mro. cbn [exc_depth exc_ancestors exc_base].
  apply bool_decide_ext. rewrite elem_of_cons. split; [| by right].
  by intros [?|?].
Qed.

(** ** Strings *)

Lemma prefix_app (p s : string) : String.prefix p (p +:+ s) = true.
Proof.
  induction p as [|a p IH]; simpl; [by destruct s |].
  destruct (Ascii.ascii_dec a a); [exact IH | done].
Qed.

Lemma str_in_prefix (p s : string) : String.prefix p s = true → str_in p s = true.
Proof. intros Hp. destruct s; cbn [str_in]; by rewrite Hp. Qed.

Lemma str_in_here (p s : string) : str_in p (p +:+ s) = true.
Proof. apply str_in_prefix, prefix_app. Qed.

Lemma str_in_later (p a s : string) : str_in p s = true → str_in p (a +:+ s) = true.
Proof.
  intros Hs. induction a as [|c a IH]; simpl; [done |].
  rewrite IH. apply orb_true_r.
Qed.

(** For a one-character needle, [in] is membership of the character. *)
Lemma str_in_char (c : Ascii.ascii) (s : string) :
  str_in (String c "") s = true ↔ c ∈ String.list_ascii_of_string s.
Proof.
  induction s as [|c' s IH]; simpl.
  - split; [done | by intros ?%elem_of_nil].
  - rewrite orb_true_iff, IH, elem_of_cons.
    destruct (Ascii.ascii_dec c c') as [->|Hne].
    + split; [by left | intros _; left; by destruct s].
    + split; [intros [?|?]; [done | by right] | intros [?|?]; [done | by right]].
Qed.

Lemma no_namespace_str_in (s : string) :
  negb (str_in "/" s) = true ↔ no_namespace s.
Proof.
  unfold no_namespace. rewrite negb_true_iff, <- not_true_iff_false.
  by rewrite str_in_char.
Qed.

Lemma filter_no_namespace (l : list HubEntry) :
  filter (λ e, negb (str_in "/" (id e))) l = filter (λ e, no_namespace (id e)) l.
Proof.
  apply list_filter_iff. intros e. rewrite <- no_namespace_str_in.
  by destruct (negb _).
Qed.

(** ** The monad *)

Section monad.
Context {Ext : Type}.
Implicit Types w : World Ext.

Lemma bind_Ret {A B} (m : M Ext A) (f : A → M Ext B) w a w1 :
  m w = (Ret a, w1) → (m ≫= f) w = f a w1.
Proof. unfold mbind, M_bind. by intros ->. Qed.

Lemma bind_Raise {A B} (m : M Ext A) (f : A → M Ext B) w e w1 :
  m w = (Raise e, w1) → (m ≫= f) w = (Raise e, w1).
Proof. unfold mbind, M_bind. by intros ->. Qed.

Lemma bind_Ret_inv {A B} (m : M Ext A) (f : A → M Ext B) w b w2 :
  (m ≫= f) w = (Ret b, w2) → ∃ a w1, m w = (Ret a, w1) ∧ f a w1 = (Ret b, w2).
Proof.
  unfold mbind, M_bind. destruct (m w) as [[a|e] w1]; [eauto | done].
Qed.

Lemma bind_Raise_inv {A B} (m : M Ext A) (f : A → M Ext B) w e w2 :
  (m ≫= f) w = (Raise e, w2) →
  m w = (Raise e, w2) ∨ ∃ a w1, m w = (Ret a, w1) ∧ f a w1 = (Raise e, w2).
Proof.
  unfold mbind, M_bind. destruct (m w) as [[a|e'] w1]; [eauto |].
  intros [= <- <-]. by left.
Qed.

Lemma try_except_Ret {A} (body : M Ext A) cls h w a w1 :
  body w = (Ret a, w1) → try_except body cls h w = (Ret a, w1).
Proof. unfold try_except. by intros ->. Qed.

Lemma try_except_caught {A} (body : M Ext A) cls h w e w1 :
  body w = (Raise e, w1) → isinstance e cls = true →
  try_except body cls h w = h e w1.
Proof. unfold try_except. by intros -> ->. Qed.

Lemma try_except_missed {A} (body : M Ext A) cls h w e w1 :
  body w = (Raise e, w1) → isinstance e cls = false →
  try_except body cls h w = (Raise e, w1).
Proof. unfold try_except. by intros -> ->. Qed.

End monad.

(** ** Catalogue listing *)

Section listing.
Context {Ext : Type} {E : Env Ext}.
Implicit Types w : World Ext.

Lemma kept_entries_no_namespace (catalog : list HubEntry) :
  Forall (λ e, no_namespace (id e)) (kept_entries false catalog).
Proof.
  unfold kept_entries. apply Forall_forall. intros e He.
  by apply list_elem_of_filter in He as [? _].
Qed.

Lemma kept_entries_sublist wc (catalog : list HubEntry) :
  kept_entries wc catalog `sublist_of` catalog.
Proof. unfold kept_entries. destruct wc; [done | apply sublist_filter]. Qed.

Lemma kept_entries_spec wc (catalog : list HubEntry) :
  kept_entries wc catalog `sublist_of` catalog
  ∧ (wc = true → kept_entries wc catalog = catalog)
  ∧ (wc = false →
     kept_entries wc catalog = filter (λ e, no_namespace (id e)) catalog
     ∧ Forall (λ e, str_in "/" (id e) = false) (kept_entries wc catalog)
     ∧ Forall no_namespace (id <$> kept_entries wc catalog)
     ∧ ∀ e, e ∈ kept_entries wc catalog ↔ e ∈ catalog ∧ no_namespace (id e)).
Proof.
  split_and!; [apply kept_entries_sublist | by intros -> |].
  intros ->. split_and!; [done | | |].
  - eapply Forall_impl; [apply kept_entries_no_namespace |].
    intros e He. apply no_namespace_str_in in He. by apply negb_true_iff.
  - apply Forall_fmap. apply kept_entries_no_namespace.
  - intros e. unfold kept_entries. rewrite list_elem_of_filter. tauto.
Qed.

(** C5: on a catalogue response, [list_datasets] returns the response
    filtered down to the entries whose identifier contains no "/" when
    community entries are excluded (every entry otherwise), as the list of
    identifier strings when details are not requested and as the full
    records when they are; it asks the hub for full records exactly when
    details are requested.  [list_metrics] does the same on the metrics
    catalogue.  Each function is stated on the response of its own
    catalogue alone. *)
Theorem list_datasets_list_metrics_spec (with_community with_details : bool) w :
  (∀ catalog w1,
     hub_list_datasets with_details w = (Ret catalog, w1) →
     ∃ kept,
       list_datasets with_community with_details w
         = (Ret (if with_details then Records kept else Names (id <$> kept)), w1)
       ∧ kept `sublist_of` catalog
       ∧ (with_community = true → kept = catalog)
       ∧ (with_community = false →
          kept = filter (λ e, no_namespace (id e)) catalog
          ∧ Forall (λ e, str_in "/" (id e) = false) kept
          ∧ Forall no_namespace (id <$> kept)
          ∧ ∀ e, e ∈ kept ↔ e ∈ catalog ∧ no_namespace (id e)))
  ∧ (∀ mcatalog w2,
       hub_list_metrics w = (Ret mcatalog, w2) →
       ∃ kept,
         list_metrics with_community with_details w
           = (Ret (if with_details then Records kept else Names (id <$> kept)), w2)
         ∧ kept `sublist_of` mcatalog
         ∧ (with_community = true → kept = mcatalog)
         ∧ (with_community = false →
            kept = filter (λ e, no_namespace (id e)) mcatalog
            ∧ Forall (λ e, str_in "/" (id e) = false) kept
            ∧ Forall no_namespace (id <$> kept)
            ∧ ∀ e, e ∈ kept ↔ e ∈ mcatalog ∧ no_namespace (id e))).
Proof.
  split.
  - intros catalog w1 Hd. exists (kept_entries with_community catalog).
    split; [| apply kept_entries_spec].
    unfold list_datasets. rewrite (bind_Ret _ _ _ _ _ Hd).
    rewrite filter_no_namespace.
    by destruct with_community, with_details.
  - intros mcatalog w2 Hm. exists (kept_entries with_community mcatalog).
    split; [| apply kept_entries_spec].
    unfold list_metrics. rewrite (bind_Ret _ _ _ _ _ Hm).
    rewrite filter_no_namespace.
    by destruct with_community, with_details.
Qed.

End listing.

(** ** Script inspection *)

Section inspection.
Context {Ext : Type} {E : Env Ext}.
Implicit Types w : World Ext.

Lemma inspect_dataset_message_names path local_path module_path :
  str_in path (inspect_dataset_message path local_path module_path) = true
  ∧ str_in local_path (inspect_dataset_message path local_path module_path) = true
  ∧ str_in module_path (inspect_dataset_message path local_path module_path) = true.
Proof.
  unfold inspect_dataset_message.
  split_and!; repeat first [apply str_in_here | apply str_in_later].
Qed.

Lemma inspect_metric_message_names path local_path module_path :
  str_in path (inspect_metric_message path local_path module_path) = true
  ∧ str_in local_path (inspect_metric_message path local_path module_path) = true
  ∧ str_in module_path (inspect_metric_message path local_path module_path) = true.
Proof.
  unfold inspect_metric_message.
  split_and!; repeat first [apply str_in_here | apply str_in_later].
Qed.

(** C8: [inspect_dataset] and [inspect_metric] call the factory with the
    forced local path and return [None].  When the factory returns, the
    world is the one the factory left plus one printed line that names the
    path, the local path and the module path; when the factory raises, the
    same exception comes out and the world is the one the factory left,
    nothing printed. *)
Theorem inspect_effects path local_path download_config download_kwargs
    w (o : Outcome DatasetModule) w1 (om : Outcome MetricModule) w2 :
  dataset_module_factory
    (inspect_args path local_path download_config download_kwargs) w = (o, w1) →
  metric_module_factory
    (inspect_args path local_path download_config download_kwargs) w = (om, w2) →
  fa_force_local_path (inspect_args path local_path download_config download_kwargs)
    = Some local_path
  ∧ match o with
    | Ret dataset_module =>
        let line := inspect_dataset_message path local_path (module_path dataset_module) in
        inspect_dataset path local_path download_config download_kwargs w
          = (Ret (), printed line w1)
        ∧ str_in path line = true ∧ str_in (module_path dataset_module) line = true
    | Raise e =>
        inspect_dataset path local_path download_config download_kwargs w
          = (Raise e, w1)
    end
  ∧ match om with
    | Ret metric_module =>
        let line :=
          inspect_metric_message path local_path (metric_module_path metric_module) in
        inspect_metric path local_path download_config download_kwargs w
          = (Ret (), printed line w2)
        ∧ str_in path line = true ∧ str_in (metric_module_path metric_module) line = true
    | Raise e =>
        inspect_metric path local_path download_config download_kwargs w
          = (Raise e, w2)
    end.
Proof.
  intros Hd Hm. split_and!; [done | |].
  - destruct o as [m|e].
    + split_and!; [| apply inspect_dataset_message_names..].
      unfold inspect_dataset. fold (inspect_args path local_path download_config download_kwargs).
      by rewrite (bind_Ret _ _ _ _ _ Hd).
    + unfold inspect_dataset. fold (inspect_args path local_path download_config download_kwargs).
      by rewrite (bind_Raise _ _ _ _ _ Hd).
  - destruct om as [m|e].
    + split_and!; [| apply inspect_metric_message_names..].
      unfold inspect_metric. fold (inspect_args path local_path download_config download_kwargs).
      by rewrite (bind_Ret _ _ _ _ _ Hm).
    + unfold inspect_metric. fold (inspect_args path local_path download_config download_kwargs).
      by rewrite (bind_Raise _ _ _ _ _ Hm).
Qed.

End inspection.

(** ** Configuration names *)

Section config_names.
Context {Ext : Type} {E : Env Ext}.
Implicit Types w : World Ext.

(** C3: once the factory has resolved the module and the builder class is
    imported, [get_dataset_config_names] returns the keys of the class's
    [builder_configs] in their order; when there are none it returns the
    one-element list holding [builder_kwargs["config_name"]], or "default"
    when the key is absent. *)
Theorem get_dataset_config_names_spec path revision download_config download_mode
    force_local_path dynamic_modules_path data_files download_kwargs
    w dataset_module w1 builder_cls w2 :
  dataset_module_factory
    (mkFactoryArgs path revision download_config download_mode force_local_path
                   dynamic_modules_path data_files download_kwargs) w
    = (Ret dataset_module, w1) →
  import_main_class (module_path dataset_module) w1 = (Ret builder_cls, w2) →
  ∃ names,
    get_dataset_config_names path revision download_config download_mode
      force_local_path dynamic_modules_path data_files download_kwargs w
      = (Ret names, w2)
    ∧ (dict_items (builder_configs builder_cls) ≠ [] →
       names = (dict_items (builder_configs builder_cls)).*1)
    ∧ (dict_items (builder_configs builder_cls) = [] →
       names = [match builder_kwargs dataset_module !! "config_name" with
                | Some v => v
                | None => PyStr "default"
                end]).
Proof.
  intros Hf Hi. unfold get_dataset_config_names.
  rewrite (bind_Ret _ _ _ _ _ Hf), (bind_Ret _ _ _ _ _ Hi).
  unfold dict_keys, default_config_name, mret, M_ret.
  destruct (dict_items (builder_configs builder_cls)) as [|kv l]; csimpl.
  - eexists. split_and!; [done | done |]. intros _.
    by destruct (builder_kwargs dataset_module !! "config_name").
  - eexists. split_and!; done.
Qed.

End config_names.

(** ** Dictionaries *)

Section dict_updates.
Context {K V : Type} `{EqDecision K}.

Lemma items_set_keys (k : K) (v : V) l :
  (items_set k v l).*1 = if decide (k ∈ l.*1) then l.*1 else l.*1 ++ [k].
Proof.
  induction l as [|[k' v'] l IH]; csimpl.
  - destruct (decide (k ∈ [])) as [Hin|_]; [by apply elem_of_nil in Hin | done].
  - destruct (decide (k' = k)) as [->|Hne]; csimpl.
    + rewrite decide_True; [done | apply list_elem_of_here].
    + rewrite IH. destruct (decide (k ∈ l.*1)) as [Hin|Hnin].
      * rewrite decide_True; [done | by apply list_elem_of_further].
      * rewrite decide_False; [done |].
        intros [?|?]%elem_of_cons; congruence.
Qed.

Lemma items_get_set_eq (k : K) (v : V) l : items_get k (items_set k v l) = Some v.
Proof.
  induction l as [|[k' v'] l IH]; simpl.
  - by rewrite decide_True.
  - destruct (decide (k' = k)) as [->|Hne]; simpl.
    + by rewrite decide_True.
    + by rewrite decide_False.
Qed.

Lemma items_get_set_ne (k k' : K) (v : V) l :
  k ≠ k' → items_get k' (items_set k v l) = items_get k' l.
Proof.
  intros Hne. induction l as [|[k0 v0] l IH]; simpl.
  - by rewrite decide_False.
  - destruct (decide (k0 = k)) as [->|Hne0]; simpl.
    + by rewrite !decide_False.
    + destruct (decide (k0 = k')); [done | apply IH].
Qed.

Lemma items_get_None (k : K) (l : list (K * V)) : items_get k l = None ↔ k ∉ l.*1.
Proof.
  induction l as [|[k' v'] l IH]; csimpl.
  - split; [intros _; apply not_elem_of_nil | done].
  - rewrite not_elem_of_cons. destruct (decide (k' = k)) as [->|Hne].
    + split; [done | by intros []].
    + rewrite IH. split; [by intros ? | by intros []].
Qed.

End dict_updates.

(** ** The mapping built from the split generators *)

Section splits_of.
Variable path : string.

Lemma split_entry_by_name (g : SplitGenerator) :
  split_entry path g = split_entry_named path (name g).
Proof. done. Qed.

Local Abbreviation step :=
  (λ (d : pydict string SplitMeta) (g : SplitGenerator),
     dict_set (name g) (split_entry path g) d).

Lemma splits_fold_keys gens (acc : pydict string SplitMeta) k :
  k ∈ dict_keys (foldl step acc gens) ↔ k ∈ dict_keys acc ∨ k ∈ name <$> gens.
Proof.
  revert acc. induction gens as [|g gens IH]; intros acc; csimpl.
  - split; [by left | intros [?|?%elem_of_nil]; done].
  - rewrite IH. unfold dict_keys at 1; simpl. rewrite items_set_keys.
    fold (dict_keys acc). rewrite elem_of_cons.
    destruct (decide (name g ∈ dict_keys acc)) as [Hin|Hnin].
    + split; [intros [?|?]; auto | intros [?|[->|?]]; auto].
    + rewrite elem_of_app, list_elem_of_singleton. tauto.
Qed.

Lemma splits_fold_get gens (acc : pydict string SplitMeta) k :
  dict_get k (foldl step acc gens)
  = if decide (k ∈ name <$> gens) then Some (split_entry_named path k)
    else dict_get k acc.
Proof.
  revert acc. induction gens as [|g gens IH]; intros acc.
  - cbn [foldl]. case_decide as Hin; [by apply elem_of_nil in Hin | done].
  - cbn [foldl]. rewrite fmap_cons.
    rewrite IH. destruct (decide (k ∈ name <$> gens)) as [Hin|Hnin].
    + rewrite decide_True; [done | by apply list_elem_of_further].
    + unfold dict_get; simpl. destruct (decide (name g = k)) as [<-|Hne].
      * rewrite decide_True by apply list_elem_of_here.
        by rewrite items_get_set_eq.
      * rewrite decide_False by (intros [?|?]%elem_of_cons; congruence).
        by apply items_get_set_ne.
Qed.

Lemma splits_fold_keys_NoDup gens (acc : pydict string SplitMeta) :
  NoDup (name <$> gens) →
  (∀ k, k ∈ name <$> gens → k ∉ dict_keys acc) →
  dict_keys (foldl step acc gens) = dict_keys acc ++ (name <$> gens).
Proof.
  revert acc. induction gens as [|g gens IH]; intros acc; csimpl.
  - intros _ _. by rewrite app_nil_r.
  - intros [Hg Hnd]%NoDup_cons Hacc.
    assert (Hset : dict_keys (dict_set (name g) (split_entry path g) acc)
                   = dict_keys acc ++ [name g]).
    { unfold dict_keys; simpl. rewrite items_set_keys.
      rewrite decide_False; [done |]. apply Hacc, list_elem_of_here. }
    rewrite IH, Hset; [by rewrite <- app_assoc | done |].
    intros k Hk. rewrite Hset.
    intros [Hin| ->%list_elem_of_singleton]%elem_of_app; [| done].
    eapply Hacc; [by apply list_elem_of_further | done].
Qed.

Lemma splits_of_keys gens k :
  k ∈ dict_keys (splits_of path gens) ↔ k ∈ name <$> gens.
Proof.
  unfold splits_of. rewrite splits_fold_keys.
  split; [intros [?%elem_of_nil|?]; done | by right].
Qed.

Lemma splits_of_get gens k :
  k ∈ name <$> gens →
  dict_get k (splits_of path gens) = Some (split_entry_named path k).
Proof. intros Hk. unfold splits_of. rewrite splits_fold_get. by rewrite decide_True. Qed.

Lemma splits_of_keys_NoDup gens :
  NoDup (name <$> gens) → dict_keys (splits_of path gens) = name <$> gens.
Proof.
  intros Hnd. unfold splits_of. rewrite splits_fold_keys_NoDup; [done | done |].
  intros k _. apply not_elem_of_nil.
Qed.

End splits_of.

(** ** Per-configuration info *)

Section config_info.
Context {Ext : Type} {E : Env Ext}.
Implicit Types w : World Ext.

Section run.
Variables (path : string) (config_name data_files : pyval)
  (download_config : option loc) (download_mode revision use_auth_token : pyval)
  (config_kwargs : gmap string pyval).

Local Abbreviation loader_args :=
  (loader_args path config_name data_files download_config download_mode revision
     use_auth_token config_kwargs).
Local Abbreviation config_info_run :=
  (config_info_run path config_name data_files download_config download_mode revision
     use_auth_token config_kwargs).
Local Abbreviation discovery_raises := (discovery_raises download_config use_auth_token).

Lemma config_info_run_sound w o w' :
  config_info_run w o w' →
  get_dataset_config_info path config_name data_files download_config download_mode
    revision use_auth_token config_kwargs w = (o, w').
Proof.
  unfold get_dataset_config_info. fold loader_args.
  destruct 1 as [e w1 Hl|b w1 e w2 Hl Ha|b w1 b' w2 s Hl Ha Hs
                 |b w1 b' w2 s w3 Hl Ha Hs Hd|b w1 b' w2 err w3 Hl Ha Hs Hd Hi
                 |b w1 b' w2 err w3 Hl Ha Hs Hd Hi].
  - by rewrite (bind_Raise _ _ _ _ _ Hl).
  - by rewrite (bind_Ret _ _ _ _ _ Hl), (bind_Raise _ _ _ _ _ Ha).
  - rewrite (bind_Ret _ _ _ _ _ Hl), (bind_Ret _ _ _ _ _ Ha). by rewrite Hs.
  - rewrite (bind_Ret _ _ _ _ _ Hl), (bind_Ret _ _ _ _ _ Ha). rewrite Hs.
    apply try_except_Ret. by rewrite (bind_Ret _ _ _ _ _ Hd).
  - rewrite (bind_Ret _ _ _ _ _ Hl), (bind_Ret _ _ _ _ _ Ha). rewrite Hs.
    erewrite try_except_caught; [done | by rewrite (bind_Raise _ _ _ _ _ Hd) | done].
  - rewrite (bind_Ret _ _ _ _ _ Hl), (bind_Ret _ _ _ _ _ Ha). rewrite Hs.
    apply try_except_missed; [by rewrite (bind_Raise _ _ _ _ _ Hd) | done].
Qed.

Lemma config_info_run_complete w :
  ∃ o w',
    get_dataset_config_info path config_name data_files download_config download_mode
      revision use_auth_token config_kwargs w = (o, w')
    ∧ config_info_run w o w'.
Proof.
  destruct (load_dataset_builder loader_args w) as [[b|e] w1] eqn:Hl; last first.
  { eexists _, _. split; [apply config_info_run_sound |]; by eapply run_load_failed. }
  destruct (extend_dataset_builder_for_streaming b use_auth_token w1)
    as [[b'|e] w2] eqn:Ha; last first.
  { eexists _, _. split; [apply config_info_run_sound |]; by eapply run_adapt_failed. }
  destruct (splits (info b')) as [s|] eqn:Hs.
  { eexists _, _. split; [apply config_info_run_sound |]; by eapply run_splits_present. }
  destruct (discover_splits path b' download_config use_auth_token w2)
    as [[s|err] w3] eqn:Hd.
  { eexists _, _. split; [apply config_info_run_sound |]; by eapply run_splits_computed. }
  destruct (isinstance err Exception) eqn:Hi.
  - eexists _, _. split; [apply config_info_run_sound |]; by eapply run_splits_not_found.
  - eexists _, _. split; [apply config_info_run_sound |]; by eapply run_not_caught.
Qed.

Lemma config_info_run_inv w o w' :
  get_dataset_config_info path config_name data_files download_config download_mode
    revision use_auth_token config_kwargs w = (o, w') →
  config_info_run w o w'.
Proof.
  intros Hg. destruct (config_info_run_complete w) as (o1 & w1 & Hg1 & Hrun).
  rewrite Hg in Hg1. by injection Hg1 as -> ->.
Qed.

Lemma config_info_Ret_splits w info0 w' :
  get_dataset_config_info path config_name data_files download_config download_mode
    revision use_auth_token config_kwargs w = (Ret info0, w') →
  is_Some (splits info0).
Proof.
  intros Hg%config_info_run_inv. inversion Hg; subst; simpl; eauto.
Qed.

Lemma discover_splits_Raise b w err w' :
  discover_splits path b download_config use_auth_token w = (Raise err, w')
  ↔ discovery_raises b w err w'.
Proof.
  unfold discover_splits. split.
  - intros [Hp|(l & w1 & Hp & Hrest)]%bind_Raise_inv; [by eapply raises_in_config |].
    apply bind_Raise_inv in Hrest as [Hm|(dm & w2 & Hm & Hrest)];
      [by eapply raises_in_manager |].
    apply bind_Raise_inv in Hrest as [Hg|(gens & w3 & Hg & Hrest)];
      [by eapply raises_in_generators | done].
  - destruct 1 as [err w1 Hp|l w1 err w2 Hp Hm|l w1 dm w2 err w3 Hp Hm Hg].
    + by rewrite (bind_Raise _ _ _ _ _ Hp).
    + by rewrite (bind_Ret _ _ _ _ _ Hp), (bind_Raise _ _ _ _ _ Hm).
    + by rewrite (bind_Ret _ _ _ _ _ Hp), (bind_Ret _ _ _ _ _ Hm),
        (bind_Raise _ _ _ _ _ Hg).
Qed.

Lemma discover_splits_Ret b w s w' :
  discover_splits path b download_config use_auth_token w = (Ret s, w') →
  ∃ l w1 dl_manager w2 gens,
    prepared_download_config download_config use_auth_token w = (Ret l, w1)
    ∧ StreamingDownloadManager (base_path b) l w1 = (Ret dl_manager, w2)
    ∧ _split_generators b dl_manager w2 = (Ret gens, w')
    ∧ s = splits_of path gens.
Proof.
  unfold discover_splits.
  intros (l & w1 & Hp & Hrest)%bind_Ret_inv.
  apply bind_Ret_inv in Hrest as (dm & w2 & Hm & Hrest).
  apply bind_Ret_inv in Hrest as (gens & w3 & Hg & Hrest).
  injection Hrest as <- <-. eauto 10.
Qed.

(** C1, amended: whatever the arguments and the world, when the call
    returns, the info it returns has [splits] set: either the builder's info
    had them already and is returned as it is, or the download configuration
    was prepared, the streaming download manager constructed on the
    builder's base path, the split generators enumerated with it, and
    [splits] assigned the mapping from each generator's name to
    [{"name": name, "dataset_name": path}] before the return.  When the call
    does not return, it raises the unchanged exception of builder loading or
    of streaming adaptation, or split discovery raised: an [Exception] then
    comes out as [SplitsNotFoundError] with the fixed message and the
    original as cause, anything else unchanged. *)
Theorem get_dataset_config_info_splits_never_unset w :
  let r := get_dataset_config_info path config_name data_files download_config
             download_mode revision use_auth_token config_kwargs w in
  match r.1 with
  | Ret info0 =>
      is_Some (splits info0)
      ∧ ∃ b w1 b' w2,
          load_dataset_builder loader_args w = (Ret b, w1)
          ∧ extend_dataset_builder_for_streaming b use_auth_token w1 = (Ret b', w2)
          ∧ info_fields info0 = info_fields (info b')
          ∧ ((∃ s, splits (info b') = Some s ∧ info0 = info b' ∧ r.2 = w2)
             ∨ (splits (info b') = None
                ∧ ∃ l w3 dl_manager w4 gens d,
                    prepared_download_config download_config use_auth_token w2
                      = (Ret l, w3)
                    ∧ StreamingDownloadManager (base_path b') l w3
                      = (Ret dl_manager, w4)
                    ∧ _split_generators b' dl_manager w4 = (Ret gens, r.2)
                    ∧ splits info0 = Some d
                    ∧ (∀ k, k ∈ (dict_items d).*1 ↔ k ∈ name <$> gens)
                    ∧ (∀ k, k ∈ name <$> gens →
                            dict_get k d
                            = Some (<["dataset_name" := PyStr path]>
                                      (<["name" := PyStr k]> ∅)))
                    ∧ (NoDup (name <$> gens) → (dict_items d).*1 = name <$> gens)))
  | Raise e =>
      load_dataset_builder loader_args w = (Raise e, r.2)
      ∨ (∃ b w1,
           load_dataset_builder loader_args w = (Ret b, w1)
           ∧ extend_dataset_builder_for_streaming b use_auth_token w1 = (Raise e, r.2))
      ∨ (∃ b w1 b' w2 err,
           load_dataset_builder loader_args w = (Ret b, w1)
           ∧ extend_dataset_builder_for_streaming b use_auth_token w1 = (Ret b', w2)
           ∧ splits (info b') = None
           ∧ discovery_raises b' w2 err r.2
           ∧ ((isinstance err Exception = true
               ∧ e = Exn SplitsNotFoundError
                       "The split names could not be parsed from the dataset config."
                       (Some err))
              ∨ (isinstance err Exception = false ∧ e = err)))
  end.
Proof.
  intros r. subst r.
  destruct (get_dataset_config_info _ _ _ _ _ _ _ _ w) as [o w'] eqn:Hg; simpl.
  apply config_info_run_inv in Hg as Hrun.
  inversion Hrun as [e w1 Hl|b w1 e w2 Hl Ha|b w1 b' w2 s Hl Ha Hs
                 |b w1 b' w2 s w3 Hl Ha Hs Hd|b w1 b' w2 err w3 Hl Ha Hs Hd Hi
                 |b w1 b' w2 err w3 Hl Ha Hs Hd Hi]; subst.
  - by left.
  - right; left. eauto.
  - split; [eauto |]. exists b, w1, b', w'. split_and!; [done..|]. left. eauto.
  - split; [simpl; eauto |]. exists b, w1, b', w2. split_and!; [done..|].
    right. split; [done |].
    apply discover_splits_Ret in Hd as (l & wa & dm & wb & gens & Hp & Hm & Hg' & ->).
    exists l, wa, dm, wb, gens, (splits_of path gens).
    split_and!; [done | done | done | done | | |].
    + apply splits_of_keys.
    + apply splits_of_get.
    + apply splits_of_keys_NoDup.
  - right; right. apply discover_splits_Raise in Hd.
    exists b, w1, b', w2, err. split_and!; [done..|]. by left.
  - right; right. apply discover_splits_Raise in Hd.
    exists b, w1, b', w2, err. split_and!; [done..|]. by right.
Qed.

(** C2, amended: with [info.splits] unset, an exception of the discovery
    step (preparing the download configuration, constructing the streaming
    download manager, enumerating the split generators) that is an instance
    of [Exception] is replaced by [SplitsNotFoundError] with the fixed
    message and the original as its cause; one that is not an instance of
    [Exception] propagates unchanged, and so do the exceptions of builder
    loading and of streaming adaptation. *)
Theorem split_discovery_failure_translated w :
  (∀ b w1 b' w2 err w3,
     load_dataset_builder loader_args w = (Ret b, w1) →
     extend_dataset_builder_for_streaming b use_auth_token w1 = (Ret b', w2) →
     splits (info b') = None →
     discovery_raises b' w2 err w3 →
     get_dataset_config_info path config_name data_files download_config
       download_mode revision use_auth_token config_kwargs w
       = (Raise (if isinstance err Exception
                 then Exn SplitsNotFoundError
                        "The split names could not be parsed from the dataset config."
                        (Some err)
                 else err), w3))
  ∧ (∀ e w1,
       load_dataset_builder loader_args w = (Raise e, w1) →
       get_dataset_config_info path config_name data_files download_config
         download_mode revision use_auth_token config_kwargs w = (Raise e, w1))
  ∧ (∀ b w1 e w2,
       load_dataset_builder loader_args w = (Ret b, w1) →
       extend_dataset_builder_for_streaming b use_auth_token w1 = (Raise e, w2) →
       get_dataset_config_info path config_name data_files download_config
         download_mode revision use_auth_token config_kwargs w = (Raise e, w2)).
Proof.
  split_and!.
  - intros b w1 b' w2 err w3 Hl Ha Hs Hd%discover_splits_Raise.
    apply config_info_run_sound.
    destruct (isinstance err Exception) eqn:Hi.
    + by eapply run_splits_not_found.
    + by eapply run_not_caught.
  - intros e w1 Hl. apply config_info_run_sound. by eapply run_load_failed.
  - intros b w1 e w2 Hl Ha. apply config_info_run_sound. by eapply run_adapt_failed.
Qed.

(** C6: when [get_dataset_config_info] returns an info, its [splits] are set
    and [get_dataset_split_names], on the same arguments and world, returns
    their keys in the dictionary's order and leaves the same world. *)
Theorem get_dataset_split_names_keys w info0 w' :
  get_dataset_config_info path config_name data_files download_config download_mode
    revision use_auth_token config_kwargs w = (Ret info0, w') →
  ∃ d, splits info0 = Some d
    ∧ get_dataset_split_names path config_name data_files download_config
        download_mode revision use_auth_token config_kwargs w
      = (Ret (dict_items d).*1, w').
Proof.
  intros Hg. destruct (config_info_Ret_splits _ _ _ Hg) as [d Hd].
  exists d. split; [done |].
  unfold get_dataset_split_names. rewrite (bind_Ret _ _ _ _ _ Hg). by rewrite Hd.
Qed.

Lemma get_dataset_split_names_Raise w e w' :
  get_dataset_config_info path config_name data_files download_config download_mode
    revision use_auth_token config_kwargs w = (Raise e, w') →
  get_dataset_split_names path config_name data_files download_config
    download_mode revision use_auth_token config_kwargs w = (Raise e, w').
Proof.
  intros Hg. unfold get_dataset_split_names. by rewrite (bind_Raise _ _ _ _ _ Hg).
Qed.

End run.
End config_info.

(** ** All configurations *)

Section dict_lemmas.
Context {K V : Type} `{EqDecision K}.

Lemma items_set_fresh (k : K) (v : V) l : k ∉ l.*1 → items_set k v l = l ++ [(k, v)].
Proof.
  induction l as [|[k' v'] l IH]; csimpl; [done |].
  intros [Hne Hnin]%not_elem_of_cons.
  rewrite decide_False by done. by rewrite IH.
Qed.

Lemma items_get_zip (keys : list K) (vs : list V) i k v :
  NoDup keys → keys !! i = Some k → vs !! i = Some v →
  items_get k (zip keys vs) = Some v.
Proof.
  revert vs i. induction keys as [|k0 keys IH]; intros [|v0 vs] i Hnd Hk Hv;
    try done.
  apply NoDup_cons in Hnd as [Hk0 Hnd]. destruct i as [|i]; simpl in *.
  - injection Hk as ->. injection Hv as ->. by rewrite decide_True.
  - rewrite decide_False; [by eapply IH |].
    intros ->. apply Hk0. by eapply list_elem_of_lookup_2.
Qed.

End dict_lemmas.

Section infos.
Context {Ext : Type} {E : Env Ext}.
Implicit Types w : World Ext.

Lemma calls_in_order_length {V} (f : pyval → M Ext V) ks w vs w' :
  calls_in_order f ks w vs w' → length ks = length vs.
Proof. induction 1; simpl; congruence. Qed.

Lemma dict_comprehension_Ret {V} (f : pyval → M Ext V) keys acc w d w' :
  dict_comprehension f keys acc w = (Ret d, w') →
  NoDup keys → (∀ k, k ∈ keys → k ∉ dict_keys acc) →
  ∃ vs, calls_in_order f keys w vs w'
      ∧ dict_items d = dict_items acc ++ zip keys vs.
Proof.
  revert acc w. induction keys as [|k keys IH]; intros acc w; simpl.
  - intros [= <- <-] _ _. exists []. split; [constructor | by rewrite app_nil_r].
  - intros (v & w1 & Hf & Hrest)%bind_Ret_inv [Hk Hnd]%NoDup_cons Hacc.
    assert (Hset : dict_items (dict_set k v acc) = dict_items acc ++ [(k, v)]).
    { apply items_set_fresh, Hacc, list_elem_of_here. }
    apply IH in Hrest as (vs & Hcalls & Hitems); [| done |].
    + exists (v :: vs). split; [by econstructor |].
      rewrite Hitems, Hset. by rewrite <- app_assoc.
    + intros k' Hk'. unfold dict_keys. rewrite Hset, fmap_app.
      intros [Hin| ->%list_elem_of_singleton]%elem_of_app; [| done].
      eapply Hacc; [by apply list_elem_of_further | done].
Qed.

Lemma dict_comprehension_Raise {V} (f : pyval → M Ext V) pre k suf acc w vs w1 e w2 :
  calls_in_order f pre w vs w1 →
  f k w1 = (Raise e, w2) →
  dict_comprehension f (pre ++ k :: suf) acc w = (Raise e, w2).
Proof.
  intros Hcalls Hk. revert acc.
  induction Hcalls as [w|k0 ks w v w1 vs w1' Hf Hcalls IH]; intros acc; simpl.
  - by rewrite (bind_Raise _ _ _ _ _ Hk).
  - rewrite (bind_Ret _ _ _ _ _ Hf). by apply IH.
Qed.

Lemma dict_comprehension_Raise_inv {V} (f : pyval → M Ext V) keys acc w e w2 :
  dict_comprehension f keys acc w = (Raise e, w2) →
  ∃ pre k suf vs w1,
    keys = pre ++ k :: suf ∧ calls_in_order f pre w vs w1 ∧ f k w1 = (Raise e, w2).
Proof.
  revert acc w. induction keys as [|k keys IH]; intros acc w; simpl; [done |].
  intros [Hf|(v & w1 & Hf & Hrest)]%bind_Raise_inv.
  - exists [], k, keys, [], w. split_and!; [done | constructor | done].
  - apply IH in Hrest as (pre & k' & suf & vs & w1' & -> & Hcalls & Hk').
    exists (k :: pre), k', suf, (v :: vs), w1'.
    split_and!; [done | by econstructor | done].
Qed.

Lemma dict_comprehension_returns {V} (f : pyval → M Ext V) keys acc w vs w' :
  calls_in_order f keys w vs w' →
  ∃ d, dict_comprehension f keys acc w = (Ret d, w').
Proof.
  intros Hcalls. revert acc.
  induction Hcalls as [w|k ks w v w1 vs w2 Hf Hcalls IH]; intros acc; simpl.
  - by eexists.
  - rewrite (bind_Ret _ _ _ _ _ Hf). apply IH.
Qed.

Section run.
Variables (path : string) (data_files : pyval)
  (download_config : option loc) (download_mode revision use_auth_token : pyval)
  (config_kwargs : gmap string pyval).

Local Abbreviation infos_config_names :=
  (infos_config_names path data_files download_config download_mode revision).
Local Abbreviation infos_config_info :=
  (infos_config_info path data_files download_config download_mode revision
     use_auth_token config_kwargs).

Lemma get_dataset_config_names_NoDup p r dc dm flp dmp df kw w names w' :
  get_dataset_config_names p r dc dm flp dmp df kw w = (Ret names, w') → NoDup names.
Proof.
  unfold get_dataset_config_names.
  intros (m & w1 & _ & Hrest)%bind_Ret_inv.
  apply bind_Ret_inv in Hrest as (cls & w2 & _ & Hrest).
  injection Hrest as <- <-.
  pose proof (bool_decide_unpack _ (dict_wf (builder_configs cls))) as Hnd.
  unfold dict_keys. destruct ((dict_items (builder_configs cls)).*1); [| done].
  apply NoDup_singleton.
Qed.

Lemma get_dataset_config_names_not_nil p r dc dm flp dmp df kw w names w' :
  get_dataset_config_names p r dc dm flp dmp df kw w = (Ret names, w') → names ≠ [].
Proof.
  unfold get_dataset_config_names.
  intros (m & w1 & _ & Hrest)%bind_Ret_inv.
  apply bind_Ret_inv in Hrest as (cls & w2 & _ & Hrest).
  injection Hrest as <- <-. by destruct (dict_keys (builder_configs cls)).
Qed.

(** With no [config_name] among the keyword arguments, the call is the
    function on these arguments. *)
Lemma call_get_dataset_config_info_bound :
  config_kwargs !! "config_name" = None →
  call_get_dataset_config_info path data_files download_config download_mode revision
    use_auth_token config_kwargs
  = infos_config_info.
Proof. unfold call_get_dataset_config_info. by intros ->. Qed.

(** With [config_name] among them, the call raises [TypeError] and nothing
    is run. *)
Lemma call_get_dataset_config_info_repeated v config_name w :
  config_kwargs !! "config_name" = Some v →
  call_get_dataset_config_info path data_files download_config download_mode revision
    use_auth_token config_kwargs config_name w
  = (Raise (Exn TypeError
              "get_dataset_config_info() got multiple values for keyword argument 'config_name'"
              None), w).
Proof. unfold call_get_dataset_config_info. by intros ->. Qed.

(** When the enumeration and every call return, so does
    [get_dataset_infos]. *)
Lemma get_dataset_infos_returns w names w0 infos w' :
  infos_config_names w = (Ret names, w0) →
  calls_in_order
    (call_get_dataset_config_info path data_files download_config download_mode
       revision use_auth_token config_kwargs) names w0 infos w' →
  ∃ d, get_dataset_infos path data_files download_config download_mode revision
         use_auth_token config_kwargs w = (Ret d, w').
Proof.
  intros Hn Hcalls. unfold get_dataset_infos.
  fold infos_config_names. rewrite (bind_Ret _ _ _ _ _ Hn).
  by eapply dict_comprehension_returns.
Qed.

(** C4: when [get_dataset_infos] returns a mapping, its keys are, in order,
    the list [get_dataset_config_names] returns for the same path, revision,
    download configuration, download mode and data files; the lookups of
    [get_dataset_config_info] are made for these names one after the other
    with the caller's arguments, and the value at each name is what the
    lookup for that name returned. *)
Theorem get_dataset_infos_keys_and_values w d w' :
  get_dataset_infos path data_files download_config download_mode revision
    use_auth_token config_kwargs w = (Ret d, w') →
  ∃ names w0 infos,
    infos_config_names w = (Ret names, w0)
    ∧ calls_in_order infos_config_info names w0 infos w'
    ∧ (dict_items d).*1 = names
    ∧ dict_items d = zip names infos
    ∧ ∀ i config_name info0,
        names !! i = Some config_name → infos !! i = Some info0 →
        dict_get config_name d = Some info0.
Proof.
  unfold get_dataset_infos. fold infos_config_names.
  intros (names & w0 & Hn & Hrest)%bind_Ret_inv.
  pose proof (get_dataset_config_names_NoDup _ _ _ _ _ _ _ _ _ _ _ Hn) as Hnd.
  pose proof (get_dataset_config_names_not_nil _ _ _ _ _ _ _ _ _ _ _ Hn) as Hne.
  destruct (config_kwargs !! "config_name") as [v|] eqn:Hkw.
  { destruct names as [|n names]; [done |]. simpl in Hrest.
    by rewrite (bind_Raise _ _ _ _ _
                  (call_get_dataset_config_info_repeated v n w0 Hkw)) in Hrest. }
  rewrite (call_get_dataset_config_info_bound Hkw) in Hrest.
  apply dict_comprehension_Ret in Hrest as (infos & Hcalls & Hitems);
    [| done | intros k _; apply not_elem_of_nil].
  simpl in Hitems. exists names, w0, infos.
  pose proof (calls_in_order_length _ _ _ _ _ Hcalls) as Hlen.
  split_and!; [done | done | | done |].
  - rewrite Hitems. apply fst_zip. lia.
  - intros i n i0 Hi Hi0. unfold dict_get. rewrite Hitems.
    by eapply items_get_zip.
Qed.

(** C7: [get_dataset_infos] raises exactly what its callees raise and
    returns no partial mapping.  A failure of the enumeration of names comes
    out unchanged.  When [config_kwargs] does not repeat the keyword
    [config_name]: if [get_dataset_config_info] raises for some name, after
    the lookups for the names before it have returned, the whole call raises
    that exception in the world that lookup left; and every exception of
    [get_dataset_infos] is one of the enumeration or of the first failing
    lookup.  When [config_kwargs] repeats [config_name], the call of
    [get_dataset_config_info] for the first name fails with [TypeError]
    before the function runs, and the whole call raises that [TypeError] in
    the world the enumeration left.  In every case an exception of
    [get_dataset_infos] is the enumeration's or that of a call of
    [get_dataset_config_info]. *)
Theorem get_dataset_infos_no_partial_result w :
  (∀ e w0,
     infos_config_names w = (Raise e, w0) →
     get_dataset_infos path data_files download_config download_mode revision
       use_auth_token config_kwargs w = (Raise e, w0))
  ∧ (config_kwargs !! "config_name" = None →
     (∀ pre config_name suf w0 infos w1 e w2,
        infos_config_names w = (Ret (pre ++ config_name :: suf), w0) →
        calls_in_order infos_config_info pre w0 infos w1 →
        get_dataset_config_info path config_name data_files download_config
          download_mode revision use_auth_token config_kwargs w1 = (Raise e, w2) →
        get_dataset_infos path data_files download_config download_mode revision
          use_auth_token config_kwargs w = (Raise e, w2))
     ∧ (∀ e w2,
          get_dataset_infos path data_files download_config download_mode revision
            use_auth_token config_kwargs w = (Raise e, w2) →
          infos_config_names w = (Raise e, w2)
          ∨ ∃ pre config_name suf w0 infos w1,
              infos_config_names w = (Ret (pre ++ config_name :: suf), w0)
              ∧ calls_in_order infos_config_info pre w0 infos w1
              ∧ get_dataset_config_info path config_name data_files download_config
                  download_mode revision use_auth_token config_kwargs w1
                = (Raise e, w2)))
  ∧ (is_Some (config_kwargs !! "config_name") →
     ∀ names w0,
       infos_config_names w = (Ret names, w0) →
       ∃ config_name rest,
         names = config_name :: rest
         ∧ call_get_dataset_config_info path data_files download_config download_mode
             revision use_auth_token config_kwargs config_name w0
           = (Raise (Exn TypeError
                       "get_dataset_config_info() got multiple values for keyword argument 'config_name'"
                       None), w0)
         ∧ get_dataset_infos path data_files download_config download_mode revision
             use_auth_token config_kwargs w
           = (Raise (Exn TypeError
                       "get_dataset_config_info() got multiple values for keyword argument 'config_name'"
                       None), w0))
  ∧ (∀ e w2,
       get_dataset_infos path data_files download_config download_mode revision
         use_auth_token config_kwargs w = (Raise e, w2) →
       infos_config_names w = (Raise e, w2)
       ∨ ∃ pre config_name suf w0 infos w1,
           infos_config_names w = (Ret (pre ++ config_name :: suf), w0)
           ∧ calls_in_order
               (call_get_dataset_config_info path data_files download_config
                  download_mode revision use_auth_token config_kwargs)
               pre w0 infos w1
           ∧ call_get_dataset_config_info path data_files download_config
               download_mode revision use_auth_token config_kwargs config_name w1
             = (Raise e, w2)).
Proof.
  assert (Hinv : ∀ e w2,
    get_dataset_infos path data_files download_config download_mode revision
      use_auth_token config_kwargs w = (Raise e, w2) →
    infos_config_names w = (Raise e, w2)
    ∨ ∃ pre config_name suf w0 infos w1,
        infos_config_names w = (Ret (pre ++ config_name :: suf), w0)
        ∧ calls_in_order
            (call_get_dataset_config_info path data_files download_config
               download_mode revision use_auth_token config_kwargs)
            pre w0 infos w1
        ∧ call_get_dataset_config_info path data_files download_config
            download_mode revision use_auth_token config_kwargs config_name w1
          = (Raise e, w2)).
  { unfold get_dataset_infos. fold infos_config_names.
    intros e w2 [Hn|(names & w0 & Hn & Hrest)]%bind_Raise_inv; [by left |].
    right. apply dict_comprehension_Raise_inv in Hrest
      as (pre & k & suf & vs & w1 & -> & Hcalls & Hk).
    eauto 10. }
  split_and!; [| | | exact Hinv].
  - intros e w0 Hn. unfold get_dataset_infos. fold infos_config_names.
    by rewrite (bind_Raise _ _ _ _ _ Hn).
  - intros Hkw. split.
    + intros pre n suf w0 infos w1 e w2 Hn Hcalls Hk.
      unfold get_dataset_infos. fold infos_config_names.
      rewrite (bind_Ret _ _ _ _ _ Hn).
      rewrite (call_get_dataset_config_info_bound Hkw).
      by eapply dict_comprehension_Raise.
    + intros e w2 Hg. apply Hinv in Hg.
      by rewrite (call_get_dataset_config_info_bound Hkw) in Hg.
  - intros [v Hkw] names w0 Hn.
    pose proof (get_dataset_config_names_not_nil _ _ _ _ _ _ _ _ _ _ _ Hn) as Hne.
    destruct names as [|n rest]; [done |]. exists n, rest.
    pose proof (call_get_dataset_config_info_repeated v n w0 Hkw) as Hcall.
    split_and!; [done | done |].
    unfold get_dataset_infos. fold infos_config_names.
    rewrite (bind_Ret _ _ _ _ _ Hn). simpl.
    by rewrite (bind_Raise _ _ _ _ _ Hcall).
Qed.

End run.
End infos.

(** ** Handlers for [ValueError] *)

Section handlers.
Context {Ext : Type} {E : Env Ext}.
Implicit Types w : World Ext.

Lemma SplitsNotFoundError_caught_as_ValueError {A} (m : M Ext A) h w e w' :
  m w = (Raise e, w') → exn_class e = SplitsNotFoundError →
  try_except m ValueError h w = h e w'.
Proof.
  intros Hm He. apply try_except_caught; [done |].
  unfold isinstance. by rewrite He.
Qed.

(** C10: [SplitsNotFoundError] is declared with base [ValueError].  So when
    split discovery fails inside [get_dataset_config_info], a handler for
    [ValueError] around [get_dataset_config_info] or around
    [get_dataset_split_names] receives the [SplitsNotFoundError]; and any
    [SplitsNotFoundError] that comes out of one of the three functions is
    caught by such a handler. *)
Theorem SplitsNotFoundError_is_ValueError path config_name data_files download_config
    download_mode revision use_auth_token config_kwargs w :
  exc_base SplitsNotFoundError = Some ValueError
  ∧ issubclass SplitsNotFoundError ValueError = true
  ∧ (∀ b w1 b' w2 err w3 (h : exn → M Ext DatasetInfo) (h' : exn → M Ext (list string)),
       load_dataset_builder
         (loader_args path config_name data_files download_config download_mode
            revision use_auth_token config_kwargs) w = (Ret b, w1) →
       extend_dataset_builder_for_streaming b use_auth_token w1 = (Ret b', w2) →
       splits (info b') = None →
       discovery_raises download_config use_auth_token b' w2 err w3 →
       isinstance err Exception = true →
       try_except
         (get_dataset_config_info path config_name data_files download_config
            download_mode revision use_auth_token config_kwargs)
         ValueError h w = h (splits_not_found err) w3
       ∧ try_except
           (get_dataset_split_names path config_name data_files download_config
              download_mode revision use_auth_token config_kwargs)
           ValueError h' w = h' (splits_not_found err) w3)
  ∧ (∀ e w' (h : exn → M Ext (pydict pyval DatasetInfo)),
       get_dataset_infos path data_files download_config download_mode revision
         use_auth_token config_kwargs w = (Raise e, w') →
       exn_class e = SplitsNotFoundError →
       try_except
         (get_dataset_infos path data_files download_config download_mode revision
            use_auth_token config_kwargs)
         ValueError h w = h e w').
Proof.
  split_and!; [done | done | |].
  - intros b w1 b' w2 err w3 h h' Hl Ha Hs Hd Hi.
    apply (discover_splits_Raise path) in Hd.
    assert (Hg : get_dataset_config_info path config_name data_files download_config
                   download_mode revision use_auth_token config_kwargs w
                 = (Raise (splits_not_found err), w3)).
    { apply config_info_run_sound. by eapply run_splits_not_found. }
    split.
    + by apply SplitsNotFoundError_caught_as_ValueError.
    + apply SplitsNotFoundError_caught_as_ValueError; [| done].
      by apply get_dataset_split_names_Raise.
  - intros e w' h Hg He. by apply SplitsNotFoundError_caught_as_ValueError.
Qed.

End handlers.

(** ** The caller's download configuration *)

Section frame.
Context {Ext : Type} {E : Env Ext}.
Implicit Types w : World Ext.

(** Preparing the configuration for split discovery allocates a new object
    and writes to that one only. *)
Lemma prepared_download_config_frame download_config use_auth_token l0 c w :
  dc_heap w !! l0 = Some c →
  dc_heap (prepared_download_config download_config use_auth_token w).2 !! l0 = Some c
  ∧ ∀ l, (prepared_download_config download_config use_auth_token w).1 = Ret l →
         l = length (dc_heap w) ∧ l ≠ l0.
Proof.
  intros Hl0. pose proof (lookup_lt_Some _ _ _ Hl0) as Hlt.
  assert (Halloc : ∀ c', (dc_heap w ++ [c']) !! l0 = Some c).
  { intros c'. by rewrite lookup_app_l. }
  assert (Hnew : ∀ c', (dc_heap w ++ [c']) !! length (dc_heap w) = Some c').
  { intros c'. by rewrite lookup_app_r, Nat.sub_diag by lia. }
  unfold prepared_download_config, copy, DownloadConfig_new, dc_read, dc_alloc,
    lift_outcome, set_use_auth_token, mbind, M_bind, mret, M_ret.
  destruct download_config as [l|].
  - destruct (dc_heap w !! l) as [cl|]; simpl; [| by split].
    destruct (DownloadConfig_copy cl) as [c'|e]; simpl; [| by split].
    destruct (is_not_None use_auth_token); simpl.
    + rewrite Hnew. simpl. split.
      * rewrite list_lookup_insert_ne by lia. apply Halloc.
      * intros ? [= <-]. split; [done | lia].
    + split; [apply Halloc |]. intros ? [= <-]. split; [done | lia].
  - destruct DownloadConfig_init as [c'|e]; simpl; [| by split].
    destruct (is_not_None use_auth_token); simpl.
    + rewrite Hnew. simpl. split.
      * rewrite list_lookup_insert_ne by lia. apply Halloc.
      * intros ? [= <-]. split; [done | lia].
    + split; [apply Halloc |]. intros ? [= <-]. split; [done | lia].
Qed.

Section run.
Variables (path : string) (config_name data_files : pyval)
  (download_mode revision use_auth_token : pyval)
  (config_kwargs : gmap string pyval).
Variables (l0 : loc) (c : DownloadConfig).

Hypothesis load_frame : ∀ args, dc_preserved l0 c (load_dataset_builder args).
Hypothesis adapt_frame :
  ∀ b token, dc_preserved l0 c (extend_dataset_builder_for_streaming b token).
Hypothesis manager_frame :
  ∀ base l, dc_preserved l0 c (StreamingDownloadManager base l).
Hypothesis generators_frame :
  ∀ b dl_manager, dc_preserved l0 c (_split_generators b dl_manager).

Lemma discover_splits_frame b download_config :
  dc_preserved l0 c (discover_splits path b download_config use_auth_token).
Proof using manager_frame generators_frame.
  intros w Hl0.
  destruct (prepared_download_config_frame download_config use_auth_token l0 c w Hl0)
    as [Hp _].
  unfold discover_splits, mbind, M_bind.
  destruct (prepared_download_config download_config use_auth_token w)
    as [[l|e] w1]; simpl in *; [| done].
  pose proof (manager_frame (base_path b) l w1 Hp) as Hm.
  destruct (StreamingDownloadManager (base_path b) l w1) as [[dm|e] w2];
    simpl in *; [| done].
  pose proof (generators_frame b dm w2 Hm) as Hg.
  destruct (_split_generators b dm w2) as [[gens|e] w3]; simpl in *; done.
Qed.

(** C9, amended: the token is overlaid on a new object, a copy of the
    caller's download configuration, never on the caller's object; the
    statements of [get_dataset_config_info] write to no other
    [DownloadConfig].  So the object the caller passed is unchanged after
    the call, whether it returns or raises, provided the collaborators the
    call runs (the loader, which is handed the caller's object itself, the
    streaming adapter, the streaming download manager and the split
    generators) leave that object unchanged. *)
Theorem caller_download_config_unchanged :
  dc_preserved l0 c
    (get_dataset_config_info path config_name data_files (Some l0) download_mode
       revision use_auth_token config_kwargs)
  ∧ (∀ w, dc_heap w !! l0 = Some c →
       dc_heap (prepared_download_config (Some l0) use_auth_token w).2 !! l0 = Some c
       ∧ ∀ l, (prepared_download_config (Some l0) use_auth_token w).1 = Ret l → l ≠ l0).
Proof using All.
  split.
  - intros w Hl0.
    destruct (get_dataset_config_info _ _ _ _ _ _ _ _ w) as [o w'] eqn:Hg; simpl.
    apply config_info_run_inv in Hg.
    set (args := loader_args path config_name data_files (Some l0) download_mode
                   revision use_auth_token config_kwargs) in *.
    assert (Hload : ∀ o1 w1, load_dataset_builder args w = (o1, w1) →
                             dc_heap w1 !! l0 = Some c).
    { intros o1 w1 Hl. pose proof (load_frame args w Hl0) as H1. by rewrite Hl in H1. }
    assert (Hadapt : ∀ b w1 o2 w2, dc_heap w1 !! l0 = Some c →
              extend_dataset_builder_for_streaming b use_auth_token w1 = (o2, w2) →
              dc_heap w2 !! l0 = Some c).
    { intros b w1 o2 w2 H1 Ha.
      pose proof (adapt_frame b use_auth_token w1 H1) as H2. by rewrite Ha in H2. }
    assert (Hdisc : ∀ b w2 o3 w3, dc_heap w2 !! l0 = Some c →
              discover_splits path b (Some l0) use_auth_token w2 = (o3, w3) →
              dc_heap w3 !! l0 = Some c).
    { intros b w2 o3 w3 H2 Hd.
      pose proof (discover_splits_frame b (Some l0) w2 H2) as H3. by rewrite Hd in H3. }
    inversion Hg; subst; eauto.
  - intros w Hl0.
    destruct (prepared_download_config_frame (Some l0) use_auth_token l0 c w Hl0)
      as [Hp Hfresh].
    split; [done |]. intros l Hl. by apply Hfresh.
Qed.

End run.
End frame.

(** * Further properties *)

(** ** Substrings *)

Lemma append_cons (c : ascii) (a s : string) : String c a +:+ s = String c (a +:+ s).
Proof. reflexivity. Qed.

Lemma prefix_split (p s : string) :
  String.prefix p s = true ↔ ∃ post, s = p +:+ post.
Proof.
  revert s. induction p as [|a p IH]; intros s; simpl.
  - split; [intros _; by exists s | by destruct s].
  - destruct s as [|b s]; simpl.
    + split; [done | intros [post Hpost]; by rewrite append_cons in Hpost].
    + destruct (Ascii.ascii_dec a b) as [->|Hne].
      * rewrite IH. split; intros [post Hpost]; exists post;
          rewrite append_cons in *; congruence.
      * split; [done | intros [post Hpost]; rewrite append_cons in Hpost; congruence].
Qed.

(** [sub in s] holds exactly when [s] is [pre + sub + post]. *)
Lemma str_in_split (sub s : string) :
  str_in sub s = true ↔ ∃ pre post, s = pre +:+ sub +:+ post.
Proof.
  split.
  - induction s as [|c s IH]; cbn [str_in]; rewrite orb_true_iff.
    + intros [[post Hp]%prefix_split|?]; [| done]. by exists "", post.
    + intros [[post Hp]%prefix_split|Hs]; [by exists "", post |].
      destruct (IH Hs) as (pre & post & ->). exists (String c pre), post.
      by rewrite append_cons.
  - intros (pre & post & ->). apply str_in_later, str_in_here.
Qed.

Lemma no_namespace_split (s : string) :
  no_namespace s ↔ ¬ ∃ namespace name0, s = namespace +:+ "/" +:+ name0.
Proof.
  rewrite <- no_namespace_str_in, negb_true_iff, <- not_true_iff_false.
  by rewrite str_in_split.
Qed.


(** ** Catalogue listing, further *)

Section listing_more.
Context {Ext : Type} {E : Env Ext}.
Implicit Types w : World Ext.

Lemma fmap_id_filter_no_namespace (l : list HubEntry) :
  id <$> filter (λ e, no_namespace (id e)) l = filter no_namespace (id <$> l).
Proof.
  induction l as [|e l IH]; [done |].
  rewrite fmap_cons, !filter_cons.
  destruct (decide (no_namespace (id e))); by rewrite ?fmap_cons, IH.
Qed.

Lemma listing_ids_result wd (kept : list HubEntry) :
  listing_ids (listing_result wd kept) = id <$> kept.
Proof. by destruct wd. Qed.

Lemma list_datasets_run wc wd w :
  list_datasets wc wd w
  = match hub_list_datasets wd w with
    | (Ret catalog, w1) => (Ret (listing_result wd (kept_entries wc catalog)), w1)
    | (Raise e, w1) => (Raise e, w1)
    end.
Proof.
  unfold list_datasets, mbind, M_bind.
  destruct (hub_list_datasets wd w) as [[catalog|e] w1]; [| done].
  rewrite filter_no_namespace. by destruct wc, wd.
Qed.

Lemma list_metrics_run wc wd w :
  list_metrics wc wd w
  = match hub_list_metrics w with
    | (Ret catalog, w1) => (Ret (listing_result wd (kept_entries wc catalog)), w1)
    | (Raise e, w1) => (Raise e, w1)
    end.
Proof.
  unfold list_metrics, mbind, M_bind.
  destruct (hub_list_metrics w) as [[catalog|e] w1]; [| done].
  rewrite filter_no_namespace. by destruct wc, wd.
Qed.

(** X1: [list_datasets] and [list_metrics] raise exactly when the hub client
    raises, with the same exception, and in every case leave the world as
    the hub client left it. *)
Theorem listing_fails_only_with_hub (with_community with_details : bool) w :
  (list_datasets with_community with_details w).2
    = (hub_list_datasets with_details w).2
  ∧ (list_metrics with_community with_details w).2 = (hub_list_metrics w).2
  ∧ (∀ e, (list_datasets with_community with_details w).1 = Raise e
          ↔ (hub_list_datasets with_details w).1 = Raise e)
  ∧ (∀ e, (list_metrics with_community with_details w).1 = Raise e
          ↔ (hub_list_metrics w).1 = Raise e).
Proof.
  rewrite list_datasets_run, list_metrics_run.
  destruct (hub_list_datasets with_details w) as [[catalog|e0] w1];
    destruct (hub_list_metrics w) as [[mcatalog|e1] w2]; simpl;
    split_and!; try done; intros e; split; congruence.
Qed.

(** X2: listing without the community entries gives the identifiers of the
    full listing, made with the same [with_details] in the same world, with
    those containing "/" dropped and the order kept. *)
Theorem excluding_community_filters_full_listing (with_details : bool) w :
  (∀ r w',
     list_datasets true with_details w = (Ret r, w') →
     ∃ r0, list_datasets false with_details w = (Ret r0, w')
         ∧ listing_ids r0 = filter no_namespace (listing_ids r))
  ∧ (∀ r w',
       list_metrics true with_details w = (Ret r, w') →
       ∃ r0, list_metrics false with_details w = (Ret r0, w')
           ∧ listing_ids r0 = filter no_namespace (listing_ids r)).
Proof.
  split; intros r w'.
  - rewrite !list_datasets_run.
    destruct (hub_list_datasets with_details w) as [[catalog|e0] w1]; [| done].
    intros [= <- <-]. eexists. split; [done |].
    rewrite !listing_ids_result. apply fmap_id_filter_no_namespace.
  - rewrite !list_metrics_run.
    destruct (hub_list_metrics w) as [[catalog|e0] w1]; [| done].
    intros [= <- <-]. eexists. split; [done |].
    rewrite !listing_ids_result. apply fmap_id_filter_no_namespace.
Qed.

(** X3: with the community entries excluded, an identifier is listed exactly
    when it is in the hub's response and is not of the form
    [namespace + "/" + name]. *)
Theorem community_exclusion_drops_namespaced (with_details : bool) w :
  (∀ catalog w1,
     hub_list_datasets with_details w = (Ret catalog, w1) →
     ∃ r, list_datasets false with_details w = (Ret r, w1)
        ∧ ∀ s, s ∈ listing_ids r
               ↔ s ∈ id <$> catalog
                 ∧ ¬ ∃ namespace name0, s = namespace +:+ "/" +:+ name0)
  ∧ (∀ catalog w1,
       hub_list_metrics w = (Ret catalog, w1) →
       ∃ r, list_metrics false with_details w = (Ret r, w1)
          ∧ ∀ s, s ∈ listing_ids r
                 ↔ s ∈ id <$> catalog
                   ∧ ¬ ∃ namespace name0, s = namespace +:+ "/" +:+ name0).
Proof.
  assert (Hchar : ∀ (catalog : list HubEntry) s,
            s ∈ id <$> kept_entries false catalog
            ↔ s ∈ id <$> catalog
              ∧ ¬ ∃ namespace name0, s = namespace +:+ "/" +:+ name0).
  { intros catalog s. unfold kept_entries.
    rewrite fmap_id_filter_no_namespace, list_elem_of_filter, no_namespace_split.
    tauto. }
  split; intros catalog w1 Hhub.
  - rewrite list_datasets_run, Hhub. eexists. split; [done |].
    intros s. rewrite listing_ids_result. apply Hchar.
  - rewrite list_metrics_run, Hhub. eexists. split; [done |].
    intros s. rewrite listing_ids_result. apply Hchar.
Qed.

(** X4: the hub's metrics catalogue is fetched the same way whatever
    [with_details] is, so the names [list_metrics] gives without details are
    the identifiers of the records it gives with details, in the same world
    and order. *)
Theorem list_metrics_names_of_records (with_community : bool) w r w' :
  list_metrics with_community true w = (Ret r, w') →
  list_metrics with_community false w = (Ret (Names (listing_ids r)), w').
Proof.
  rewrite !list_metrics_run.
  destruct (hub_list_metrics w) as [[catalog|e0] w1]; [| done].
  by intros [= <- <-].
Qed.

End listing_more.

(** ** Configuration names, further *)

Section config_names_more.
Context {Ext : Type} {E : Env Ext}.
Implicit Types w : World Ext.

Section run.
Variables (path : string) (revision : pyval) (download_config : option loc)
  (download_mode : pyval) (force_local_path dynamic_modules_path : option string)
  (data_files : pyval) (download_kwargs : gmap string pyval).

Local Abbreviation names_args :=
  (mkFactoryArgs path revision download_config download_mode force_local_path
     dynamic_modules_path data_files download_kwargs).
Local Abbreviation config_names :=
  (get_dataset_config_names path revision download_config download_mode
     force_local_path dynamic_modules_path data_files download_kwargs).

(** X5: the list [get_dataset_config_names] returns is never empty and holds
    no name twice. *)
Theorem get_dataset_config_names_nonempty w names w' :
  get_dataset_config_names path revision download_config download_mode
    force_local_path dynamic_modules_path data_files download_kwargs w
    = (Ret names, w') →
  names ≠ [] ∧ NoDup names.
Proof.
  intros Hn. split; [| by eapply get_dataset_config_names_NoDup].
  unfold get_dataset_config_names in Hn.
  apply bind_Ret_inv in Hn as (m & w1 & _ & Hrest).
  apply bind_Ret_inv in Hrest as (cls & w2 & _ & Hrest).
  injection Hrest as <- <-.
  by destruct (dict_keys (builder_configs cls)).
Qed.

(** X6: [get_dataset_config_names] raises exactly what the factory raises
    or, once the module is resolved, what the import of the builder class
    raises; after a failure of the factory the import is not attempted. *)
Theorem get_dataset_config_names_failures w e w' :
  get_dataset_config_names path revision download_config download_mode
    force_local_path dynamic_modules_path data_files download_kwargs w
    = (Raise e, w')
  ↔ dataset_module_factory names_args w = (Raise e, w')
    ∨ ∃ dataset_module w1,
        dataset_module_factory names_args w = (Ret dataset_module, w1)
        ∧ import_main_class (module_path dataset_module) w1 = (Raise e, w').
Proof.
  unfold get_dataset_config_names. split.
  - intros [Hf|(m & w1 & Hf & Hrest)]%bind_Raise_inv; [by left |].
    apply bind_Raise_inv in Hrest as [Hi|(cls & w2 & Hi & Hrest)]; [| done].
    right. eauto.
  - intros [Hf|(m & w1 & Hf & Hi)].
    + by rewrite (bind_Raise _ _ _ _ _ Hf).
    + by rewrite (bind_Ret _ _ _ _ _ Hf), (bind_Raise _ _ _ _ _ Hi).
Qed.

End run.
End config_names_more.

(** ** Per-configuration info, further *)

Section config_info_more.
Context {Ext : Type} {E : Env Ext}.
Implicit Types w : World Ext.

Section run.
Variables (path : string) (config_name data_files : pyval)
  (download_config : option loc) (download_mode revision use_auth_token : pyval)
  (config_kwargs : gmap string pyval).

Local Abbreviation loader_args :=
  (loader_args path config_name data_files download_config download_mode revision
     use_auth_token config_kwargs).
Local Abbreviation config_info :=
  (get_dataset_config_info path config_name data_files download_config download_mode
     revision use_auth_token config_kwargs).
Local Abbreviation split_names :=
  (get_dataset_split_names path config_name data_files download_config download_mode
     revision use_auth_token config_kwargs).

(** A returning call, with the builder it went through. *)
Lemma config_info_Ret_inv w info0 w' b w1 b' w2 :
  load_dataset_builder loader_args w = (Ret b, w1) →
  extend_dataset_builder_for_streaming b use_auth_token w1 = (Ret b', w2) →
  config_info w = (Ret info0, w') →
  (∃ s, splits (info b') = Some s ∧ info0 = info b' ∧ w' = w2)
  ∨ (splits (info b') = None
     ∧ ∃ s, discover_splits path b' download_config use_auth_token w2 = (Ret s, w')
          ∧ info0 = mkDatasetInfo (Some s) (info_fields (info b'))).
Proof.
  intros Hl Ha Hg%config_info_run_inv.
  inversion Hg as [| |b0 w10 b0' w20 s Hl0 Ha0 Hs
                 |b0 w10 b0' w20 s w3 Hl0 Ha0 Hs Hd| |]; subst;
    rewrite Hl in Hl0; injection Hl0 as <- <-;
    rewrite Ha in Ha0; injection Ha0 as <- <-.
  - left. eauto.
  - right. eauto.
Qed.

(** X7: when the builder's info comes without splits and the call returns,
    the splits of the returned info have one key per name among the
    enumerated split generators and no other key, the entry at each key is
    [{"name": key, "dataset_name": path}], and when the generators' names
    are pairwise distinct the keys are these names in enumeration order. *)
Theorem computed_splits_entries w info0 w' b w1 b' w2 :
  load_dataset_builder loader_args w = (Ret b, w1) →
  extend_dataset_builder_for_streaming b use_auth_token w1 = (Ret b', w2) →
  splits (info b') = None →
  config_info w = (Ret info0, w') →
  ∃ dl_manager w3 gens d,
    _split_generators b' dl_manager w3 = (Ret gens, w')
    ∧ splits info0 = Some d
    ∧ (∀ k, k ∈ dict_keys d ↔ k ∈ name <$> gens)
    ∧ (∀ k, k ∈ name <$> gens →
            dict_get k d
            = Some (<["dataset_name" := PyStr path]> (<["name" := PyStr k]> ∅)))
    ∧ (∀ k, k ∉ name <$> gens → dict_get k d = None)
    ∧ (NoDup (name <$> gens) → dict_keys d = name <$> gens).
Proof.
  intros Hl Ha Hs Hg.
  destruct (config_info_Ret_inv _ _ _ _ _ _ _ Hl Ha Hg)
    as [(s & Hs' & _)|(_ & s & Hd & ->)]; [congruence |].
  apply discover_splits_Ret in Hd as (l & wa & dm & wb & gens & _ & _ & Hgens & ->).
  exists dm, wb, gens, (splits_of path gens). split_and!; [done | done | | | |].
  - apply splits_of_keys.
  - apply splits_of_get.
  - intros k Hk. apply items_get_None. by rewrite <- (splits_of_keys path) in Hk.
  - apply splits_of_keys_NoDup.
Qed.



(** X11: [get_dataset_split_names] raises exactly when
    [get_dataset_config_info] raises, the same exception in the same world;
    reading the keys never fails on its own. *)
Theorem get_dataset_split_names_failures w e w' :
  get_dataset_split_names path config_name data_files download_config download_mode
    revision use_auth_token config_kwargs w = (Raise e, w')
  ↔ get_dataset_config_info path config_name data_files download_config download_mode
      revision use_auth_token config_kwargs w = (Raise e, w').
Proof.
  split; [| apply get_dataset_split_names_Raise].
  unfold get_dataset_split_names.
  intros [Hg|(info0 & w1 & Hg & Hrest)]%bind_Raise_inv; [done |].
  destruct (config_info_Ret_splits _ _ _ _ _ _ _ _ _ _ _ Hg) as [d Hd].
  by rewrite Hd in Hrest.
Qed.

(** X12: a split-discovery failure comes out as [SplitsNotFoundError] and as
    nothing else: a handler for a class that is not [SplitsNotFoundError],
    [ValueError], [Exception] or [BaseException] around
    [get_dataset_config_info] does not run, even when it names the class of
    the original error. *)
Theorem discovery_failure_passes_other_handlers w b w1 b' w2 err w3 cls
    (h : exn → M Ext DatasetInfo) :
  load_dataset_builder loader_args w = (Ret b, w1) →
  extend_dataset_builder_for_streaming b use_auth_token w1 = (Ret b', w2) →
  splits (info b') = None →
  discovery_raises download_config use_auth_token b' w2 err w3 →
  isinstance err Exception = true →
  cls ∉ [SplitsNotFoundError; ValueError; Exception; BaseException] →
  try_except config_info cls h w = (Raise (splits_not_found err), w3).
Proof.
  intros Hl Ha Hs Hd Hi Hcls. apply (discover_splits_Raise path) in Hd.
  apply try_except_missed.
  - apply config_info_run_sound. by eapply run_splits_not_found.
  - unfold isinstance, issubclass; simpl. by apply bool_decide_eq_false.
Qed.

End run.
End config_info_more.

(** ** All configurations, further *)

Section infos_more.
Context {Ext : Type} {E : Env Ext}.
Implicit Types w : World Ext.

(** X13: the mapping [get_dataset_infos] returns is never empty: it has one
    item for each of the names the enumeration returned, and there is at
    least one. *)
Theorem get_dataset_infos_nonempty path data_files download_config download_mode
    revision use_auth_token config_kwargs w d w' :
  get_dataset_infos path data_files download_config download_mode revision
    use_auth_token config_kwargs w = (Ret d, w') →
  dict_items d ≠ []
  ∧ ∃ names w0,
      infos_config_names path data_files download_config download_mode revision w
        = (Ret names, w0)
      ∧ length (dict_items d) = length names.
Proof.
  unfold get_dataset_infos, infos_config_names.
  intros (names & w0 & Hn & Hrest)%bind_Ret_inv.
  pose proof (get_dataset_config_names_NoDup _ _ _ _ _ _ _ _ _ _ _ Hn) as Hnd.
  assert (Hne : names ≠ []).
  { unfold get_dataset_config_names in Hn.
    apply bind_Ret_inv in Hn as (m & w1 & _ & Hn).
    apply bind_Ret_inv in Hn as (cls & w2 & _ & Hn).
    injection Hn as <- <-. by destruct (dict_keys (builder_configs cls)). }
  apply dict_comprehension_Ret in Hrest as (infos & Hcalls & Hitems);
    [| done | intros k _; apply not_elem_of_nil].
  simpl in Hitems. apply calls_in_order_length in Hcalls.
  assert (Hlen : length (dict_items d) = length names).
  { rewrite Hitems, length_zip_with. lia. }
  split; [| eauto].
  intros Hnil. rewrite Hnil in Hlen. by destruct names.
Qed.

End infos_more.

(** * The statements on the sample environments *)

(** Closes an equation between closed terms by evaluating both sides. *)
Ltac by_evaluation :=
  match goal with |- _ = ?r => vm_cast_no_check (@eq_refl _ r) end.

Example names_of_glue :
  (get_dataset_config_names (E := sample_env) "glue" PyNone None PyNone None None
     PyNone ∅ sample_world).1
  = Ret [PyStr "cola"; PyStr "sst2"; PyStr "mrpc"].
Proof. vm_compute. reflexivity. Qed.

Example names_of_csv :
  (get_dataset_config_names (E := sample_env) "csv" PyNone None PyNone None None
     PyNone ∅ sample_world).1
  = Ret [PyStr "my_csv"].
Proof. vm_compute. reflexivity. Qed.

Example names_of_squad :
  (get_dataset_config_names (E := sample_env) "squad" PyNone None PyNone None None
     PyNone ∅ sample_world).1
  = Ret [PyStr "default"].
Proof. vm_compute. reflexivity. Qed.

Example split_names_of_glue :
  get_dataset_split_names (E := sample_env) "glue" (PyStr "cola") PyNone (Some 0)
    PyNone PyNone (PyStr "tok") ∅ sample_world
  = (Ret ["train"; "validation"; "test"],
     mkWorld [caller_config;
              mkDownloadConfig (PyStr "tok") {["cache_dir" := PyStr "/tmp/cache"]}]
             [] ["loaded glue"; "streamed"]).
Proof. vm_compute. reflexivity. Qed.

Example split_names_of_squad :
  get_dataset_split_names (E := sample_env) "squad" PyNone PyNone None
    PyNone PyNone PyNone ∅ sample_world
  = (Ret ["train"; "validation"], mkWorld [caller_config] [] ["loaded squad"]).
Proof. vm_compute. reflexivity. Qed.

Example info_of_offline :
  (get_dataset_config_info (E := sample_env) "offline" PyNone PyNone None
     PyNone PyNone PyNone ∅ sample_world).1
  = Raise (Exn SplitsNotFoundError
             "The split names could not be parsed from the dataset config."
             (Some (Exn ConnectionError "Couldn't reach the data files" None))).
Proof. vm_compute. reflexivity. Qed.

Example info_of_missing :
  get_dataset_config_info (E := sample_env) "missing" PyNone PyNone None
    PyNone PyNone PyNone ∅ sample_world
  = (Raise (Exn FileNotFoundError "Couldn't find a dataset script" None), sample_world).
Proof. vm_compute. reflexivity. Qed.

Example inspect_missing :
  inspect_dataset (E := sample_env) "missing" "/tmp/missing" None ∅ sample_world
  = (Raise (Exn FileNotFoundError "Couldn't find a dataset script" None), sample_world).
Proof. vm_compute. reflexivity. Qed.

Example infos_with_repeated_config_name :
  get_dataset_infos (E := sample_env) "glue" PyNone None PyNone PyNone PyNone
    {["config_name" := PyStr "cola"]} sample_world
  = (Raise (Exn TypeError
              "get_dataset_config_info() got multiple values for keyword argument 'config_name'"
              None), sample_world).
Proof. by_evaluation. Qed.

Example list_datasets_details :
  (list_datasets (E := sample_env) false true sample_world).1
  = Ret (Records [mkHubEntry "squad" {["private" := PyBool false]};
                  mkHubEntry "glue" {["private" := PyBool false]}]).
Proof. vm_compute. reflexivity. Qed.

Example KeyboardInterrupt_not_Exception :
  issubclass KeyboardInterrupt Exception = false
  ∧ issubclass ConnectionError Exception = true
  ∧ issubclass SplitsNotFoundError Exception = true.
Proof. done. Qed.

Lemma list_datasets_list_metrics_spec_witness :
  ∃ kept,
    list_datasets (E := sample_env) false false sample_world
      = (Ret (Names (id <$> kept)), sample_world)
    ∧ id <$> kept = ["squad"; "glue"].
Proof.
  destruct (proj1 (list_datasets_list_metrics_spec (E := sample_env) false false
                     sample_world)
              (sample_catalog false) sample_world eq_refl)
    as (kept & H1 & _ & _ & H2).
  exists kept. split; [exact H1 |].
  destruct (H2 eq_refl) as (-> & _). reflexivity.
Defined.

Lemma inspect_effects_witness :
  inspect_dataset (E := sample_env) "squad" "/tmp/squad" None ∅ sample_world
  = (Ret (),
     mkWorld [caller_config]
       ["The processing script for dataset squad can be inspected at /tmp/squad. The main class is in datasets_modules/squad. You can modify this processing script and use it with `datasets.load_dataset(/tmp/squad)`."]
       ["copied to /tmp/squad"]).
Proof.
  destruct (inspect_effects (E := sample_env) "squad" "/tmp/squad" None ∅
              sample_world _ _ _ _ eq_refl eq_refl) as (_ & (H1 & _) & _).
  exact H1.
Defined.

Lemma get_dataset_config_names_spec_witness :
  ∃ names,
    get_dataset_config_names (E := sample_env) "glue" PyNone None PyNone None None
      PyNone ∅ sample_world = (Ret names, sample_world)
    ∧ names = [PyStr "cola"; PyStr "sst2"; PyStr "mrpc"].
Proof.
  destruct (get_dataset_config_names_spec (E := sample_env) "glue" PyNone None PyNone
              None None PyNone ∅ sample_world _ _ _ _ eq_refl eq_refl)
    as (names & H1 & H2 & _).
  exists names. split; [exact H1 | by apply H2].
Defined.

Lemma split_discovery_failure_translated_witness :
  get_dataset_config_info (E := sample_env) "offline" PyNone PyNone None PyNone
    PyNone PyNone ∅ sample_world
  = (Raise (Exn SplitsNotFoundError
              "The split names could not be parsed from the dataset config."
              (Some (Exn ConnectionError "Couldn't reach the data files" None))),
     mkWorld [caller_config; mkDownloadConfig PyNone ∅] []
       ["loaded offline"; "streamed"]).
Proof.
  destruct (split_discovery_failure_translated (E := sample_env) "offline" PyNone
              PyNone None PyNone PyNone PyNone ∅ sample_world) as (H & _ & _).
  refine (H _ _ _ _ (Exn ConnectionError "Couldn't reach the data files" None) _
            eq_refl eq_refl eq_refl _).
  eapply raises_in_generators; reflexivity.
Defined.

(** With the enumeration of the split generators interrupted from the
    keyboard, the call neither returns an info nor raises
    [SplitsNotFoundError]. *)
Lemma get_dataset_config_info_interrupted :
  ¬ returns_splits_or_not_found (E := interrupted_env) "glue" PyNone PyNone None
      PyNone PyNone PyNone ∅ sample_world.
Proof.
  intros [(info0 & w' & H & _)|(e & w' & H & Hcls)]; vm_compute in H.
  - discriminate H.
  - injection H as <- _. discriminate Hcls.
Qed.

(** A [KeyboardInterrupt] during the enumeration of the split generators is
    not an [Exception]: it comes out of [get_dataset_config_info] as it is. *)
Lemma split_discovery_interrupt_not_translated :
  ¬ every_discovery_exception_translated (E := interrupted_env) "glue" PyNone PyNone
      None PyNone PyNone PyNone ∅ sample_world.
Proof.
  intros H.
  assert (Hraises : discovery_raises (E := interrupted_env) None PyNone
                      (mkBuilder (mkDatasetInfo None ∅) "base/glue"
                         {["config" := PyNone]})
                      (logged "loaded glue" sample_world)
                      (Exn KeyboardInterrupt "" None)
                      (mkWorld [caller_config; mkDownloadConfig PyNone ∅] []
                         ["loaded glue"])).
  { eapply raises_in_generators; reflexivity. }
  specialize (H _ _ _ _ _ _ eq_refl eq_refl eq_refl Hraises).
  vm_compute in H. discriminate H.
Qed.

Lemma get_dataset_split_names_keys_witness :
  get_dataset_split_names (E := sample_env) "glue" (PyStr "cola") PyNone (Some 0)
    PyNone PyNone (PyStr "tok") ∅ sample_world
  = (Ret ["train"; "validation"; "test"],
     mkWorld [caller_config;
              mkDownloadConfig (PyStr "tok") {["cache_dir" := PyStr "/tmp/cache"]}]
             [] ["loaded glue"; "streamed"]).
Proof.
  destruct (get_dataset_split_names_keys (E := sample_env) "glue" (PyStr "cola")
              PyNone (Some 0) PyNone PyNone (PyStr "tok") ∅ sample_world _ _ eq_refl)
    as (d & Hd & Hs).
  injection Hd as <-. exact Hs.
Defined.

Lemma get_dataset_infos_keys_and_values_witness :
  ∃ d w',
    get_dataset_infos (E := sample_env) "glue" PyNone None PyNone PyNone PyNone ∅
      sample_world = (Ret d, w')
    ∧ (dict_items d).*1 = [PyStr "cola"; PyStr "sst2"; PyStr "mrpc"].
Proof.
  pose (glue_info := mkDatasetInfo (Some (splits_of "glue" sample_splits)) ∅).
  pose (d := dict_set (PyStr "mrpc") glue_info
               (dict_set (PyStr "sst2") glue_info
                  (dict_set (PyStr "cola") glue_info dict_empty))).
  pose (w' := mkWorld
                [caller_config; mkDownloadConfig PyNone ∅; mkDownloadConfig PyNone ∅;
                 mkDownloadConfig PyNone ∅] []
                ["loaded glue"; "streamed"; "loaded glue"; "streamed";
                 "loaded glue"; "streamed"]).
  assert (Hrun : get_dataset_infos (E := sample_env) "glue" PyNone None PyNone PyNone
                   PyNone ∅ sample_world = (Ret d, w')).
  { by_evaluation. }
  exists d, w'. split; [exact Hrun |].
  destruct (get_dataset_infos_keys_and_values (E := sample_env) "glue" PyNone None
              PyNone PyNone PyNone ∅ sample_world _ _ Hrun)
    as (names & w0 & infos & Hn & _ & Hk & _).
  rewrite Hk. injection Hn as <- _. reflexivity.
Defined.

Lemma get_dataset_infos_no_partial_result_witness :
  get_dataset_infos (E := sample_env) "glue_partly_offline" PyNone None PyNone PyNone
    PyNone ∅ sample_world
  = (Raise (Exn SplitsNotFoundError
              "The split names could not be parsed from the dataset config."
              (Some (Exn ConnectionError "Couldn't reach the data files" None))),
     mkWorld [caller_config; mkDownloadConfig PyNone ∅; mkDownloadConfig PyNone ∅] []
       ["loaded glue_partly_offline"; "streamed";
        "loaded glue_partly_offline"; "streamed"]).
Proof.
  destruct (get_dataset_infos_no_partial_result (E := sample_env) "glue_partly_offline"
              PyNone None PyNone PyNone PyNone ∅ sample_world) as (_ & HB & _).
  destruct (HB eq_refl) as [H _].
  pose (w1 := mkWorld [caller_config; mkDownloadConfig PyNone ∅] []
                ["loaded glue_partly_offline"; "streamed"]).
  pose (cola := mkDatasetInfo (Some (splits_of "glue_partly_offline" sample_splits)) ∅).
  assert (Hcola : infos_config_info (E := sample_env) "glue_partly_offline" PyNone
                    None PyNone PyNone PyNone ∅ (PyStr "cola") sample_world
                  = (Ret cola, w1)).
  { by_evaluation. }
  apply (H [PyStr "cola"] (PyStr "sst2") [PyStr "mrpc"] sample_world [cola] w1).
  - vm_compute. reflexivity.
  - exact (calls_cons _ _ _ _ _ _ _ _ Hcola (calls_nil _ w1)).
  - vm_compute. reflexivity.
Defined.

Lemma SplitsNotFoundError_is_ValueError_witness :
  try_except
    (get_dataset_config_info (E := sample_env) "offline" PyNone PyNone None PyNone
       PyNone PyNone ∅)
    ValueError (λ e, mret (mkDatasetInfo (Some dict_empty) ∅)) sample_world
  = (Ret (mkDatasetInfo (Some dict_empty) ∅),
     mkWorld [caller_config; mkDownloadConfig PyNone ∅] []
       ["loaded offline"; "streamed"]).
Proof.
  destruct (SplitsNotFoundError_is_ValueError (E := sample_env) "offline" PyNone
              PyNone None PyNone PyNone PyNone ∅ sample_world) as (_ & _ & H & _).
  refine (proj1 (H _ _ _ _ (Exn ConnectionError "Couldn't reach the data files" None) _
                   (λ e, mret (mkDatasetInfo (Some dict_empty) ∅))
                   (λ e, mret [])
                   eq_refl eq_refl eq_refl _ eq_refl)).
  eapply raises_in_generators; reflexivity.
Defined.

(** The caller's object is handed to the loader as it is; with a loader that
    writes to it, the object has changed when the call returns. *)
Lemma caller_config_changed_by_loader :
  ¬ caller_config_always_unchanged (E := normalising_env) "glue" PyNone PyNone PyNone
      PyNone PyNone ∅ 0 caller_config sample_world.
Proof.
  intros H. specialize (H eq_refl). vm_compute in H. discriminate H.
Qed.

Lemma caller_download_config_unchanged_witness :
  dc_heap (get_dataset_config_info (E := sample_env) "glue" PyNone PyNone (Some 0)
             PyNone PyNone (PyStr "tok") ∅ sample_world).2 !! 0
  = Some caller_config.
Proof.
  refine (proj1 (caller_download_config_unchanged (E := sample_env) "glue" PyNone
                   PyNone PyNone PyNone (PyStr "tok") ∅ 0 caller_config _ _ _ _)
            sample_world eq_refl).
  - intros args w Hw. unfold load_dataset_builder, sample_env, sample_env_with,
      sample_load_dataset_builder. destruct (String.eqb _ _); exact Hw.
  - intros b token w Hw. exact Hw.
  - intros base l w Hw. exact Hw.
  - intros b dl_manager w Hw. unfold _split_generators, sample_env, sample_env_with,
      sample_split_generators. destruct (unreachable b); exact Hw.
Defined.

Lemma excluding_community_filters_full_listing_witness :
  ∃ r0, list_datasets (E := sample_env) false false sample_world
          = (Ret r0, sample_world)
      ∧ listing_ids r0 = ["squad"; "glue"].
Proof.
  destruct (proj1 (excluding_community_filters_full_listing (E := sample_env) false
                     sample_world)
              (Names ["squad"; "lhoestq/squad"; "glue"]) sample_world eq_refl)
    as (r0 & H1 & H2).
  exists r0. split; [exact H1 | rewrite H2; reflexivity].
Defined.

Lemma community_exclusion_drops_namespaced_witness :
  ∃ r, list_datasets (E := sample_env) false true sample_world = (Ret r, sample_world)
     ∧ "lhoestq/squad" ∉ listing_ids r.
Proof.
  destruct (proj1 (community_exclusion_drops_namespaced (E := sample_env) true
                     sample_world)
              (sample_catalog true) sample_world eq_refl) as (r & H1 & H2).
  exists r. split; [exact H1 |].
  intros Hin. apply H2 in Hin as [_ Hn]. apply Hn. by exists "lhoestq", "squad".
Defined.

Lemma list_metrics_names_of_records_witness :
  list_metrics (E := sample_env) false false sample_world
  = (Ret (Names ["accuracy"]), sample_world).
Proof.
  exact (list_metrics_names_of_records (E := sample_env) false sample_world
           (Records [mkHubEntry "accuracy" ∅]) sample_world eq_refl).
Defined.

Lemma get_dataset_config_names_nonempty_witness :
  [PyStr "default"] ≠ [] ∧ NoDup [PyStr "default"].
Proof.
  exact (get_dataset_config_names_nonempty (E := sample_env) "squad" PyNone None
           PyNone None None PyNone ∅ sample_world [PyStr "default"] sample_world
           eq_refl).
Defined.

Lemma get_dataset_config_names_failures_witness :
  get_dataset_config_names (E := sample_env) "missing" PyNone None PyNone None None
    PyNone ∅ sample_world
  = (Raise (Exn FileNotFoundError "Couldn't find a dataset script" None), sample_world).
Proof.
  apply (get_dataset_config_names_failures (E := sample_env)).
  left. reflexivity.
Defined.

Lemma computed_splits_entries_witness :
  ∃ d,
    splits (mkDatasetInfo (Some (splits_of "glue" sample_splits)) ∅) = Some d
    ∧ dict_keys d = ["train"; "validation"; "test"]
    ∧ dict_get "test" d
      = Some (<["dataset_name" := PyStr "glue"]> (<["name" := PyStr "test"]> ∅)).
Proof.
  assert (Hrun : get_dataset_config_info (E := sample_env) "glue" (PyStr "cola") PyNone
                   None PyNone PyNone PyNone ∅ sample_world
                 = (Ret (mkDatasetInfo (Some (splits_of "glue" sample_splits)) ∅),
                    mkWorld [caller_config; mkDownloadConfig PyNone ∅] []
                      ["loaded glue"; "streamed"])).
  { by_evaluation. }
  destruct (computed_splits_entries (E := sample_env) "glue" (PyStr "cola") PyNone
              None PyNone PyNone PyNone ∅ sample_world _ _ _ _ _ _
              eq_refl eq_refl eq_refl Hrun)
    as (dm & w3 & gens & d & Hg & Hd & _ & Hget & _ & Hord).
  assert (Hgens : gens = sample_splits).
  { unfold _split_generators, sample_env, sample_env_with, sample_split_generators in Hg.
    change (unreachable _) with false in Hg. by injection Hg as <- _. }
  subst gens. exists d. split_and!; [exact Hd | | ].
  - apply Hord. csimpl.
    repeat (apply NoDup_cons_2;
            [rewrite ?elem_of_cons, elem_of_nil; intuition discriminate |]).
    apply NoDup_nil_2.
  - apply Hget. csimpl. repeat first [apply list_elem_of_here | apply list_elem_of_further].
Defined.



Lemma get_dataset_split_names_failures_witness :
  get_dataset_split_names (E := sample_env) "missing" PyNone PyNone None PyNone PyNone
    PyNone ∅ sample_world
  = (Raise (Exn FileNotFoundError "Couldn't find a dataset script" None), sample_world).
Proof.
  apply (get_dataset_split_names_failures (E := sample_env)). reflexivity.
Defined.

Lemma discovery_failure_passes_other_handlers_witness :
  try_except
    (get_dataset_config_info (E := sample_env) "offline" PyNone PyNone None PyNone
       PyNone PyNone ∅)
    ConnectionError (λ e, mret (mkDatasetInfo (Some dict_empty) ∅)) sample_world
  = (Raise (Exn SplitsNotFoundError
              "The split names could not be parsed from the dataset config."
              (Some (Exn ConnectionError "Couldn't reach the data files" None))),
     mkWorld [caller_config; mkDownloadConfig PyNone ∅] []
       ["loaded offline"; "streamed"]).
Proof.
  refine (discovery_failure_passes_other_handlers (E := sample_env) "offline" PyNone
            PyNone None PyNone PyNone PyNone ∅ sample_world _ _ _ _
            (Exn ConnectionError "Couldn't reach the data files" None) _
            ConnectionError _ eq_refl eq_refl eq_refl _ eq_refl _).
  - eapply raises_in_generators; reflexivity.
  - rewrite !elem_of_cons, elem_of_nil. intuition discriminate.
Defined.

Lemma get_dataset_infos_nonempty_witness :
  ∃ d w',
    get_dataset_infos (E := sample_env) "squad" PyNone None PyNone PyNone PyNone ∅
      sample_world = (Ret d, w')
    ∧ dict_items d ≠ [].
Proof.
  pose (d := dict_set (PyStr "default") (mkDatasetInfo (Some squad_splits) ∅)
               dict_empty).
  assert (Hrun : get_dataset_infos (E := sample_env) "squad" PyNone None PyNone PyNone
                   PyNone ∅ sample_world = (Ret d, logged "loaded squad" sample_world)).
  { by_evaluation. }
  exists d, (logged "loaded squad" sample_world). split; [exact Hrun |].
  exact (proj1 (get_dataset_infos_nonempty (E := sample_env) "squad" PyNone None
                  PyNone PyNone PyNone ∅ sample_world _ _ Hrun)).
Defined.
